(** * Code Structure Analyzer: the extractor and the class splitter

    A shallow embedding of the domain logic of the repository:

    - [src/src/code_element.py] and [src/src/code_analyzer.py], the modular
      analyzer that [src/main_window.py] imports;
    - [src/scripts/generator.py], the single-file edition of the same program,
      whose [CodeElement] is a dataclass;
    - [split_classes], [_get_class_imports] and [_get_imported_names] of
      [src/main_window.py] (the same text in [src/scripts/generator.py]).

    Python's own libraries are not part of the repository.  [ast.parse],
    [ast.get_source_segment] and the regular-expression engine behind
    [re.finditer] are section variables; everything else the program calls
    ([str] methods, [os.path], [ast.walk]) is written out below.

    Texts are [string]s over 7-bit ASCII; a character above 127 is taken to
    be neither white space nor a word character. *)

From Stdlib Require Import String Ascii List Arith Lia Bool Permutation Sorted.
From Stdlib Require Import DecimalString.
Import ListNotations.
Open Scope list_scope.
Open Scope string_scope.

(* ===================================================================== *)
(** * Part I: definitions *)
(* ===================================================================== *)

(** ** Exceptions and fallible computations *)

(** The exception classes the program can meet.  Every one of them derives
    from [Exception], so an [except Exception] clause catches them all. *)
Inductive exception : Type :=
| SyntaxError (msg : string)
| TypeError (msg : string)
| IndexError (msg : string)
| AttributeError (msg : string)
| OSError (msg : string).

(** [str(e)] *)
Definition str_of_exception (e : exception) : string :=
  match e with
  | SyntaxError m | TypeError m | IndexError m | AttributeError m | OSError m => m
  end.

Inductive result (A : Type) : Type :=
| Return (a : A)
| Raise (e : exception).
Arguments Return {A} a.
Arguments Raise {A} e.

Definition bind {A B : Type} (m : result A) (k : A -> result B) : result B :=
  match m with
  | Return a => k a
  | Raise e => Raise e
  end.

Notation "x <- m ;; k" := (bind m (fun x => k))
  (at level 61, m at next level, right associativity).

Definition raises {A : Type} (m : result A) : bool :=
  match m with Return _ => false | Raise _ => true end.

(** ** The [str] methods the program uses *)

Module Py.

Definition newline : ascii := "010"%char.

(** [str.isspace] on one ASCII character: tab, line feed, vertical tab, form
    feed, carriage return, the four separators 28..31 and the blank. *)
Definition isspace (c : ascii) : bool :=
  let n := nat_of_ascii c in
  (((9 <=? n) && (n <=? 13)) || ((28 <=? n) && (n <=? 32)))%nat.

(** The class [\w] on ASCII: letters, digits and the underscore. *)
Definition isword (c : ascii) : bool :=
  let n := nat_of_ascii c in
  (((48 <=? n) && (n <=? 57)) || ((65 <=? n) && (n <=? 90))
   || ((97 <=? n) && (n <=? 122)) || (n =? 95))%nat.

(** [s.startswith(p)] *)
Definition startswith (s p : string) : bool := String.prefix p s.

(** [needle in hay]: [needle] occurs as a substring of [hay]. *)
Fixpoint contains (hay needle : string) : bool :=
  String.prefix needle hay
  || match hay with
     | EmptyString => false
     | String _ rest => contains rest needle
     end.

(** [s.endswith(p)] *)
Fixpoint endswith (s p : string) : bool :=
  String.eqb s p
  || match s with
     | EmptyString => false
     | String _ rest => endswith rest p
     end.

(** [s.split('\n')]: never empty, one more piece than there are line feeds. *)
Fixpoint split_lines (s : string) : list string :=
  match s with
  | EmptyString => [EmptyString]
  | String c rest =>
      if Ascii.eqb c newline then EmptyString :: split_lines rest
      else match split_lines rest with
           | l :: ls => String c l :: ls
           | [] => [String c EmptyString]
           end
  end.

Fixpoint lstrip (s : string) : string :=
  match s with
  | EmptyString => EmptyString
  | String c rest => if isspace c then lstrip rest else s
  end.

Fixpoint rstrip (s : string) : string :=
  match s with
  | EmptyString => EmptyString
  | String c rest =>
      match rstrip rest with
      | EmptyString => if isspace c then EmptyString else String c EmptyString
      | r => String c r
      end
  end.

(** [s.strip()] *)
Definition strip (s : string) : string := rstrip (lstrip s).

(** [sep.join(l)] *)
Fixpoint join (sep : string) (l : list string) : string :=
  match l with
  | [] => EmptyString
  | [x] => x
  | x :: rest => x ++ sep ++ join sep rest
  end.

Definition lower_char (c : ascii) : ascii :=
  let n := nat_of_ascii c in
  if ((65 <=? n) && (n <=? 90))%nat then ascii_of_nat (n + 32) else c.

(** [s.lower()] *)
Fixpoint lower (s : string) : string :=
  match s with
  | EmptyString => EmptyString
  | String c rest => String (lower_char c) (lower rest)
  end.

(** The one-character text a Python source writes as a backslash and an n. *)
Definition nl : string := String newline EmptyString.

(** [s[n:]] *)
Fixpoint drop (n : nat) (s : string) : string :=
  match n, s with
  | 0, _ => s
  | S _, EmptyString => EmptyString
  | S k, String _ rest => drop k rest
  end.

(** [l[i]] for an index that is not negative. *)
Definition getitem {A : Type} (l : list A) (i : nat) : result A :=
  match nth_error l i with
  | Some x => Return x
  | None => Raise (IndexError "list index out of range")
  end.

(** [s.rpartition(c)] without the separator: the text before and after the
    last [c], when there is one. *)
Fixpoint rpartition (c : ascii) (s : string) : option (string * string) :=
  match s with
  | EmptyString => None
  | String a rest =>
      match rpartition c rest with
      | Some (h, t) => Some (String a h, t)
      | None => if Ascii.eqb a c then Some (EmptyString, rest) else None
      end
  end.

Fixpoint all_chars (c : ascii) (s : string) : bool :=
  match s with
  | EmptyString => true
  | String a rest => Ascii.eqb a c && all_chars c rest
  end.

(** [s.rstrip(c)] for one character [c] *)
Fixpoint rstrip_char (c : ascii) (s : string) : string :=
  match s with
  | EmptyString => EmptyString
  | String a rest =>
      match rstrip_char c rest with
      | EmptyString => if Ascii.eqb a c then EmptyString else String a EmptyString
      | r => String a r
      end
  end.

End Py.

(** ** [os.path] (posixpath) *)

Module os_path.

Definition sep : ascii := "/"%char.
Definition extsep : ascii := "."%char.

(** [os.path.basename(p)]: what follows the last slash. *)
Definition basename (p : string) : string :=
  match Py.rpartition sep p with
  | Some (_, t) => t
  | None => p
  end.

(** [os.path.dirname(p)]: what precedes the last slash, without trailing
    slashes unless it is made of slashes only. *)
Definition dirname (p : string) : string :=
  match Py.rpartition sep p with
  | Some (h, _) =>
      let head := h ++ String sep EmptyString in
      if Py.all_chars sep head then head else Py.rstrip_char sep head
  | None => EmptyString
  end.

(** [os.path.splitext(p)]: the extension starts at the last dot of the last
    component, provided a character other than a dot precedes it there. *)
Definition splitext (p : string) : string * string :=
  let '(dir, base) :=
    match Py.rpartition sep p with
    | Some (h, t) => (h ++ String sep EmptyString, t)
    | None => (EmptyString, p)
    end in
  match Py.rpartition extsep base with
  | Some (stem, ext) =>
      if Py.all_chars extsep stem then (p, EmptyString)
      else (dir ++ stem, String extsep ext)
  | None => (p, EmptyString)
  end.

(** [os.path.join(a, b)] *)
Definition join (a b : string) : string :=
  if Py.startswith b "/" then b
  else if String.eqb a EmptyString || Py.endswith a "/" then a ++ b
  else a ++ "/" ++ b.

End os_path.

(** ** The syntax trees of the [ast] module *)

Module ast.

(** The position attributes [ast.parse] gives every statement and
    expression node. *)
Record span : Type := mkspan {
  lineno : nat;
  col_offset : nat;
  end_lineno : nat;
  end_col_offset : nat
}.

(** [ast.alias]: one imported name, [name] and the optional [asname]. *)
Record alias : Type := mkalias {
  name : string;
  asname : option string
}.

(** The node classes the program tells apart, with the fields it reads.
    Every other class is [Other], known by its child nodes alone.  The child
    lists are in the order of the class's [_fields], which is the order
    [ast.iter_child_nodes] yields them in.  A [FunctionDef] keeps its
    children (arguments, body, decorators, annotation) as one list: the
    program reads its name only.  The type parameters Python 3.12 adds to
    class definitions are left out. *)
#[warnings="-register-all"]
Inductive node : Type :=
| Module (body : list node)
| ClassDef (loc : span) (cname : string)
           (bases keywords body decorator_list : list node)
| FunctionDef (loc : span) (fname : string) (children : list node)
| Import (loc : span) (names : list alias)
| ImportFrom (loc : span) (module : option string) (names : list alias)
| Name (loc : span) (id : string)
| Alias (a : alias)
| Other (children : list node).

(** [ast.iter_child_nodes].  The child of a [Name] is its [ctx] ([Load],
    [Store] or [Del]), a leaf of a class the program never looks for. *)
Definition iter_child_nodes (n : node) : list node :=
  match n with
  | Module body => body
  | ClassDef _ _ bases keywords body decorator_list =>
      (bases ++ keywords ++ body ++ decorator_list)%list
  | FunctionDef _ _ children => children
  | Import _ names => map Alias names
  | ImportFrom _ _ names => map Alias names
  | Name _ _ => [Other []]
  | Alias _ => []
  | Other children => children
  end.

(** The number of nodes of a tree. *)
Fixpoint size (n : node) : nat :=
  let fix sizes (l : list node) : nat :=
    match l with
    | [] => 0
    | x :: r => size x + sizes r
    end in
  match n with
  | Module body => S (sizes body)
  | ClassDef _ _ bases keywords body decorator_list =>
      S (sizes bases + (sizes keywords + (sizes body + sizes decorator_list)))
  | FunctionDef _ _ children => S (sizes children)
  | Import _ names => S (List.length names)
  | ImportFrom _ _ names => S (List.length names)
  | Name _ _ => 2
  | Alias _ => 1
  | Other children => S (sizes children)
  end.

(** The loop of [ast.walk]: take the first node of the queue, put its
    children at the end of the queue, yield it.  Each turn uses up one node,
    so [fuel] bounds the turns. *)
Fixpoint walk_queue (fuel : nat) (todo : list node) : list node :=
  match fuel with
  | 0 => []
  | S fuel' =>
      match todo with
      | [] => []
      | n :: rest => n :: walk_queue fuel' (rest ++ iter_child_nodes n)%list
      end
  end.

(** [ast.walk(n)]: [n] and its descendants, breadth first.  There are
    [size n] turns to take. *)
Definition walk (n : node) : list node := walk_queue (size n) [n].

(** [node.name] of a class or function definition. *)
Definition def_name (n : node) : string :=
  match n with
  | ClassDef _ cname _ _ _ _ => cname
  | FunctionDef _ fname _ => fname
  | _ => EmptyString
  end.

Definition is_ClassDef (n : node) : bool :=
  match n with ClassDef _ _ _ _ _ _ => true | _ => false end.

Definition is_Import (n : node) : bool :=
  match n with Import _ _ | ImportFrom _ _ _ => true | _ => false end.

(** The nodes of a tree by structural descent, parent first: the reference
    against which [walk] is counted. *)
Fixpoint subnodes (n : node) : list node :=
  let fix all (l : list node) : list node :=
    match l with
    | [] => []
    | x :: r => (subnodes x ++ all r)%list
    end in
  n :: match n with
       | Module body => all body
       | ClassDef _ _ bases keywords body decorator_list =>
           (all bases ++ all keywords ++ all body ++ all decorator_list)%list
       | FunctionDef _ _ children => all children
       | Import _ names => map Alias names
       | ImportFrom _ _ names => map Alias names
       | Name _ _ => [Other []]
       | Alias _ => []
       | Other children => all children
       end.

(** The number of class definitions in a tree, nested ones included. *)
Fixpoint count_classes (n : node) : nat :=
  let fix sum (l : list node) : nat :=
    match l with
    | [] => 0
    | x :: r => count_classes x + sum r
    end in
  match n with
  | Module body => sum body
  | ClassDef _ _ bases keywords body decorator_list =>
      S (sum bases + (sum keywords + (sum body + sum decorator_list)))
  | FunctionDef _ _ children => sum children
  | Import _ _ | ImportFrom _ _ _ | Name _ _ | Alias _ => 0
  | Other children => sum children
  end.

End ast.

(** ** The record the extractor produces *)

(** The seven annotated attributes of [CodeElement], the same in
    [src/src/code_element.py] and [src/scripts/generator.py]. *)
Record CodeElement : Type := mkCodeElement {
  name : string;
  type : string;
  decorators : list string;
  imports : list string;
  methods : list string;
  line_number : nat;
  dependencies : list string
}.

(** What calling the class with the seven keyword arguments does. *)
Definition constructor : Type :=
  string -> string -> list string -> list string -> list string -> nat ->
  list string -> result CodeElement.

(** [src/scripts/generator.py]: the class is decorated with [@dataclass], so
    it has the generated [__init__] that stores the seven arguments. *)
Module scripts_generator.
Definition CodeElement_call : constructor :=
  fun name type decorators imports methods line_number dependencies =>
    Return (mkCodeElement name type decorators imports methods line_number
              dependencies).
End scripts_generator.

(** [src/src/code_element.py]: the class body holds annotations only; there
    is neither a decorator nor an [__init__], so the call reaches
    [object.__init__], which refuses any argument. *)
Module src_code_element.
Definition CodeElement_call : constructor :=
  fun _ _ _ _ _ _ _ => Raise (TypeError "CodeElement() takes no arguments").
End src_code_element.

(** ** The file system *)

(** A path holds a readable and writable file, or something [open] refuses
    (a directory, a file without permission). *)
Inductive entry : Type :=
| File (data : string)
| Locked.

(** The newest binding of a path comes first. *)
Definition filesystem : Type := list (string * entry).

Fixpoint lookup (fs : filesystem) (path : string) : option entry :=
  match fs with
  | [] => None
  | (p, e) :: rest => if String.eqb p path then Some e else lookup rest path
  end.

(** [str(e)] of an [OSError] about a path. *)
Definition errno_text (what path : string) : string :=
  what ++ ": '" ++ path ++ "'".

(** [open(path, 'r').read()] *)
Definition open_read (fs : filesystem) (path : string) : result string :=
  match lookup fs path with
  | Some (File data) => Return data
  | Some Locked => Raise (OSError (errno_text "[Errno 13] Permission denied" path))
  | None => Raise (OSError (errno_text "[Errno 2] No such file or directory" path))
  end.

(** [open(path, 'w').write(data)]: creates the file or replaces its text. *)
Definition open_write (fs : filesystem) (path data : string)
  : result filesystem :=
  match lookup fs path with
  | Some Locked => Raise (OSError (errno_text "[Errno 13] Permission denied" path))
  | _ => Return ((path, File data) :: fs)
  end.

(** ** [CodeAnalyzer] *)

Module CodeAnalyzer.

(** [self.patterns['angular']], in insertion order.  Each of the four
    patterns is one literal text with its parenthesis escaped, so
    [re.search(pattern, line)] asks whether the text occurs in the line.
    The tables [react], [python] and [nestjs] of [self.patterns] are never
    read. *)
Definition angular : list (string * string) :=
  [ ("component", "@Component(");
    ("service", "@Injectable(");
    ("module", "@NgModule(");
    ("pipe", "@Pipe(") ].

Definition re_search (pattern line : string) : bool := Py.contains line pattern.

(** The pattern of [_extract_methods], as the source writes it. *)
Definition method_pattern : string :=
  "(?:public|private|protected)?\s*\w+\s*\([^)]*\)\s*{".

(** [\w+] at the head of [s]: the longest run of word characters. *)
Fixpoint take_word (s : string) : string :=
  match s with
  | EmptyString => EmptyString
  | String c rest => if Py.isword c then String c (take_word rest) else EmptyString
  end.

(** [\s+] at the head of [s]: what follows the longest run of white space,
    when the run is not empty. *)
Definition skip_spaces (s : string) : option string :=
  match s with
  | EmptyString => None
  | String c _ => if Py.isspace c then Some (Py.lstrip s) else None
  end.

(** [class\s+(\w+)] at the head of [s]; the result is group 1. *)
Definition match_class (s : string) : option string :=
  if Py.startswith s "class" then
    match skip_spaces (Py.drop 5 s) with
    | Some rest =>
        match take_word rest with
        | EmptyString => None
        | w => Some w
        end
    | None => None
    end
  else None.

(** [export\s+class\s+(\w+)] at the head of [s]; the result is group 2. *)
Definition match_export_class (s : string) : option string :=
  if Py.startswith s "export" then
    match skip_spaces (Py.drop 6 s) with
    | Some rest => match_class rest
    | None => None
    end
  else None.

(** [re.search(r'class\s+(\w+)|export\s+class\s+(\w+)', line)] followed by
    [match.group(1) or match.group(2)]: the leftmost position at which one
    of the two alternatives matches, the first alternative tried first. *)
Fixpoint search_class_name (line : string) : option string :=
  match match_class line with
  | Some w => Some w
  | None =>
      match match_export_class line with
      | Some w => Some w
      | None =>
          match line with
          | EmptyString => None
          | String _ rest => search_class_name rest
          end
      end
  end.

Definition _extract_name (line : string) : string :=
  match search_class_name line with
  | Some w => w
  | None => "Unknown"
  end.

Definition _extract_imports (content : string) : list string :=
  flat_map
    (fun line =>
       if Py.startswith (Py.strip line) "import "
          || Py.startswith (Py.strip line) "from "
       then [Py.strip line] else [])
    (Py.split_lines content).

(** [str(node.module)] inside the f-string: a relative import without a
    module prints as [None]. *)
Definition str_of_module (module : option string) : string :=
  match module with
  | Some m => m
  | None => "None"
  end.

Definition _get_imports (tree : ast.node) : list string :=
  flat_map
    (fun node =>
       match node with
       | ast.Import _ names => map ast.name names
       | ast.ImportFrom _ module names =>
           [ "from " ++ str_of_module module ++ " import "
               ++ Py.join ", " (map ast.name names) ]
       | _ => []
       end)
    (ast.walk tree).

(** [list(set(deps))]: the names without repetition.  Python leaves the
    order of the list open; no statement below depends on it. *)
Definition _get_dependencies (node : ast.node) : list string :=
  nodup string_dec
    (flat_map
       (fun child =>
          match child with
          | ast.Name _ id => [id]
          | _ => []
          end)
       (ast.walk node)).

Section Analyzer.

(** [ast.parse]: the tree of a text, or the fault it raises (a
    [SyntaxError] for a text that is not Python). *)
Variable ast_parse : string -> result ast.node.

(** [m.group()] for each match of [re.finditer(pattern, content)]. *)
Variable re_finditer : string -> string -> list string.

(** The [CodeElement] class in scope. *)
Variable CodeElement_call : constructor.

Definition _extract_methods (content : string) : list string :=
  map Py.strip (re_finditer method_pattern content).

(** The body of the loop of [_analyze_python] for one node: nothing for a
    node that is not a class definition, else the call of [CodeElement]. *)
Definition python_element (tree node : ast.node) : option (result CodeElement) :=
  match node with
  | ast.ClassDef loc cname _ _ body decorator_list =>
      let decorators :=
        flat_map (fun d => match d with ast.Name _ id => [id] | _ => [] end)
          decorator_list in
      let methods :=
        flat_map (fun m => match m with ast.FunctionDef _ fname _ => [fname] | _ => [] end)
          body in
      Some (CodeElement_call cname "class" decorators (_get_imports tree)
              methods (ast.lineno loc) (_get_dependencies node))
  | _ => None
  end.

(** The loop over [ast.walk(tree)].  [elements] is appended to in place, so
    what was appended before a fault is still there when it is caught. *)
Fixpoint python_loop (tree : ast.node) (nodes : list ast.node)
  (elements : list CodeElement) : list CodeElement * option exception :=
  match nodes with
  | [] => (elements, None)
  | node :: rest =>
      match python_element tree node with
      | None => python_loop tree rest elements
      | Some (Return element) => python_loop tree rest (elements ++ [element])%list
      | Some (Raise e) => (elements, Some e)
      end
  end.

(** [_analyze_python]: any fault of the [try] block is caught (and printed,
    which is not modelled); the list is returned either way. *)
Definition _analyze_python (content : string) : list CodeElement :=
  match ast_parse content with
  | Raise _ => []
  | Return tree => fst (python_loop tree (ast.walk tree) [])
  end.

(** The inner loop of [_analyze_typescript], over the pattern table, for the
    line at index [i].  The arguments of the call are evaluated in the order
    written, [lines[i+1]] first. *)
Fixpoint typescript_patterns (content : string) (lines : list string)
  (i : nat) (line : string) (table : list (string * string))
  (elements : list CodeElement) : result (list CodeElement) :=
  match table with
  | [] => Return elements
  | (pattern_type, pattern) :: rest =>
      if re_search pattern line then
        next <- Py.getitem lines (i + 1) ;;
        current_element <-
          CodeElement_call (_extract_name next) pattern_type [Py.strip line]
            (_extract_imports content) (_extract_methods content) (i + 1) [] ;;
        typescript_patterns content lines i line rest
          (elements ++ [current_element])%list
      else typescript_patterns content lines i line rest elements
  end.

(** The outer loop, over [enumerate(lines)]. *)
Fixpoint typescript_lines (content : string) (lines : list string)
  (todo : list string) (i : nat) (elements : list CodeElement)
  : result (list CodeElement) :=
  match todo with
  | [] => Return elements
  | line :: rest =>
      elements' <- typescript_patterns content lines i line angular elements ;;
      typescript_lines content lines rest (S i) elements'
  end.

Definition _analyze_typescript (content : string) : result (list CodeElement) :=
  let lines := Py.split_lines content in
  typescript_lines content lines lines 0 [].

Definition _read_file (fs : filesystem) (file_path : string) : result string :=
  open_read fs file_path.

Definition file_ext_in (file_ext : string) (l : list string) : bool :=
  existsb (String.eqb file_ext) l.

(** [analyze_file].  The class defines no [_analyze_javascript], so the
    third branch fails at the attribute lookup. *)
Definition analyze_file (fs : filesystem) (file_path : string)
  : result (list CodeElement) :=
  file_content <- _read_file fs file_path ;;
  let file_ext := snd (os_path.splitext file_path) in
  if file_ext_in file_ext [".py"] then
    Return (_analyze_python file_content)
  else if file_ext_in file_ext [".ts"; ".tsx"] then
    _analyze_typescript file_content
  else if file_ext_in file_ext [".js"; ".jsx"] then
    Raise (AttributeError
             "'CodeAnalyzer' object has no attribute '_analyze_javascript'")
  else Return [].

End Analyzer.

End CodeAnalyzer.

(** ** The class splitter of [MainWindow] *)

Module MainWindow.

(** The message boxes the window shows, by the [QMessageBox] function that
    shows them, with title and text. *)
Inductive notice : Type :=
| information (title text : string)
| warning (title text : string)
| critical (title text : string).

(** What a run of the splitter can change: the files, and the boxes shown
    so far (oldest first). *)
Record world : Type := mkworld {
  disk : filesystem;
  shown : list notice
}.

Definition show (w : world) (n : notice) : world :=
  mkworld (disk w) (shown w ++ [n])%list.

Definition _get_imported_names (node : ast.node) : list string :=
  match node with
  | ast.Import _ names => map ast.name names
  | ast.ImportFrom _ _ names => map ast.name names
  | _ => []
  end.

(** [self.current_file.endswith('.py')] and the two path computations. *)
Definition is_python (current_file : string) : bool :=
  Py.endswith current_file ".py".

Definition base_path_of (current_file : string) : string :=
  os_path.dirname current_file.

Definition base_name_of (current_file : string) : string :=
  fst (os_path.splitext (os_path.basename current_file)).

Definition new_file_path_of (base_path base_name cname : string) : string :=
  os_path.join base_path (base_name ++ "_" ++ Py.lower cname ++ ".py").

(** The text written for a class: ["\n".join(imports + ["", class_content])]. *)
Definition new_content_of (imports : list string) (class_content : string)
  : string :=
  Py.join Py.nl (imports ++ [EmptyString; class_content])%list.

(** The box of the [except] clause of a turn of the loop, and the box at
    the end of [split_classes]. *)
Definition failure_box (class_name : string) (e : exception) : notice :=
  warning "Warning"
    ("Failed to process class " ++ class_name ++ ": " ++ str_of_exception e).

Definition success_box : notice :=
  information "Ã‰xito" "Las clases han sido separadas en archivos individuales".

Section Splitter.

Variable ast_parse : string -> result ast.node.

(** [ast.get_source_segment(source, node)] for a node that carries its
    position, as every statement [ast.parse] returns does: the text of
    [source] between the start and the end of the node. *)
Variable get_source_segment : string -> ast.node -> string.

(** Whether one of the names an import node brings in occurs in the text of
    the class. *)
Definition referenced (class_content : string) (node : ast.node) : bool :=
  existsb (fun name => Py.contains class_content name) (_get_imported_names node).

(** [_get_class_imports]: the texts of the import nodes met by [ast.walk]
    that are referenced, and the box shown when the body fails. *)
Definition _get_class_imports (source : string) (class_node : ast.node)
  : list string * list notice :=
  let class_content := get_source_segment source class_node in
  match ast_parse source with
  | Return tree =>
      (flat_map
         (fun node =>
            if ast.is_Import node then
              let import_content := get_source_segment source node in
              if referenced class_content node then [import_content] else []
            else [])
         (ast.walk tree),
       [])
  | Raise e =>
      ([], [critical "Error"
              ("Failed to retrieve class imports: " ++ str_of_exception e)])
  end.

(** One turn of the loop of [split_classes], with its own [try]: a fault
    while the file is written is shown as a warning and the turn ends. *)
Definition split_class (content base_path base_name : string) (w : world)
  (class_node : ast.node) : world :=
  match class_node with
  | ast.ClassDef _ cname _ _ _ _ =>
      let class_content := get_source_segment content class_node in
      let '(imports, boxes) := _get_class_imports content class_node in
      let new_content := new_content_of imports class_content in
      let new_file_path := new_file_path_of base_path base_name cname in
      match open_write (disk w) new_file_path new_content with
      | Return disk' => mkworld disk' (shown w ++ boxes)%list
      | Raise e =>
          mkworld (disk w) (shown w ++ boxes ++ [failure_box cname e])%list
      end
  | _ => w
  end.

(** What a turn of the loop is to write for a class of the file [path], and
    where. *)
Definition written_text (content : string) (class_node : ast.node) : string :=
  new_content_of (fst (_get_class_imports content class_node))
    (get_source_segment content class_node).

Definition target_of (path : string) (class_node : ast.node) : string :=
  new_file_path_of (base_path_of path) (base_name_of path)
    (ast.def_name class_node).

(** The body of the outer [try] of [split_classes].  [current_file] is
    [None] as long as no file was selected ([hasattr] fails). *)
Definition split_classes_body (current_file : option string) (w : world)
  : result world :=
  match current_file with
  | None => Return w
  | Some path =>
      content <- open_read (disk w) path ;;
      w' <- (if is_python path then
               tree <- ast_parse content ;;
               let classes := filter ast.is_ClassDef (ast.walk tree) in
               let base_path := base_path_of path in
               let base_name := base_name_of path in
               Return (fold_left (split_class content base_path base_name)
                         classes w)
             else Return w) ;;
      Return (show w' success_box)
  end.

(** [split_classes]: a fault of the body is shown in a box.  The body can
    fail only while it reads or parses, so nothing was written by then. *)
Definition split_classes (current_file : option string) (w : world) : world :=
  match split_classes_body current_file w with
  | Return w' => w'
  | Raise e =>
      show w (critical "Error"
                ("Failed to split classes: " ++ str_of_exception e))
  end.

End Splitter.

End MainWindow.

(** ** The dashboard of [MainWindow]: [update_ui]

    What [update_ui] computes from the records: the three counters of the
    metrics card, the rows of the tree widget and the row it selects.  The
    formatted texts (the average as a float, the size and date of the file)
    and the calls that only lay widgets out are left out. *)

Module Dashboard.

(** [len([e for e in elements if e.type == 'class'])] *)
Definition total_classes (elements : list CodeElement) : nat :=
  List.length (filter (fun e => String.eqb (type e) "class") elements).

(** [sum(len(e.methods) for e in elements)] *)
Definition total_methods (elements : list CodeElement) : nat :=
  list_sum (map (fun e => List.length (methods e)) elements).

(** [sum(len(e.imports) for e in elements)] *)
Definition total_imports (elements : list CodeElement) : nat :=
  list_sum (map (fun e => List.length (imports e)) elements).

(** The operands of [total_methods/total_classes], when the guard
    [total_classes > 0] lets the division happen; the metric is 0
    otherwise. *)
Definition average_operands (elements : list CodeElement) : option (nat * nat) :=
  if (0 <? total_classes elements)%nat
  then Some (total_methods elements, total_classes elements)
  else None.

(** A [QTreeWidgetItem]: its three columns, the colour set on the first
    column if any, and its children. *)
#[warnings="-register-all"]
Inductive tree_item : Type :=
| TreeItem (columns : list string) (foreground : option string)
           (children : list tree_item).

Definition item_children (i : tree_item) : list tree_item :=
  match i with TreeItem _ _ children => children end.

Definition item_columns (i : tree_item) : list string :=
  match i with TreeItem columns _ _ => columns end.

(** [str(n)] *)
Definition str_of_nat (n : nat) : string :=
  NilEmpty.string_of_uint (Nat.to_uint n).

(** One of the groups [Decorators], [Imports], [Methods]: present when the
    list is not empty, with one child per entry. *)
Definition group (title colour : string) (child_colour : option string)
  (entries : list string) : list tree_item :=
  match entries with
  | [] => []
  | _ =>
      [ TreeItem [title; EmptyString; EmptyString] (Some colour)
          (map (fun x => TreeItem [x; EmptyString; EmptyString] child_colour [])
             entries) ]
  end.

(** The body of the loop over the records: the row of one record. *)
Definition element_item (element : CodeElement) : tree_item :=
  TreeItem
    [name element; type element; str_of_nat (line_number element)]
    (if String.eqb (type element) "class" then Some "#3498db"
     else if String.eqb (type element) "function" then Some "#2ecc71"
     else None)
    (group "Decorators" "#9b59b6" None (decorators element)
     ++ group "Imports" "#e67e22" None (imports element)
     ++ group "Methods" "#2ecc71" (Some "#27ae60") (methods element))%list.

(** The top-level rows, one [addTopLevelItem] per record. *)
Definition tree_items (elements : list CodeElement) : list tree_item :=
  map element_item elements.

(** [min(lines)]: [None] stands for the [ValueError] of an empty list. *)
Definition py_min (lines : list nat) : option nat :=
  match lines with
  | [] => None
  | x :: rest => Some (fold_left Nat.min rest x)
  end.

(** [lines.index(x)]: the first position of [x]; [None] stands for the
    [ValueError] of a value that is not in the list. *)
Fixpoint py_index (lines : list nat) (x : nat) : option nat :=
  match lines with
  | [] => None
  | y :: rest =>
      if (y =? x)%nat then Some 0
      else match py_index rest x with
           | Some i => Some (S i)
           | None => None
           end
  end.

(** What the end of [update_ui] does about the current row. *)
Inductive selection : Type :=
| Unchanged
| Current (row : nat)
| Fault.

(** [lines = [element.line_number for element in elements]], then, if
    [lines] is not empty, [setCurrentItem(topLevelItem(lines.index(min(lines))))]. *)
Definition current_item (elements : list CodeElement) : selection :=
  let lines := map line_number elements in
  match lines with
  | [] => Unchanged
  | _ =>
      match py_min lines with
      | None => Fault
      | Some m =>
          match py_index lines m with
          | Some i => Current i
          | None => Fault
          end
      end
  end.

End Dashboard.

(** ** The two editions of the program *)

(** [Modular] is [src/src/code_analyzer.py] with the class of
    [src/src/code_element.py]; [Generator] is [src/scripts/generator.py].
    The text of the analyzer is the same in both. *)
Inductive edition : Type :=
| Modular
| Generator.

Definition CodeElement_of (ed : edition) : constructor :=
  match ed with
  | Modular => src_code_element.CodeElement_call
  | Generator => scripts_generator.CodeElement_call
  end.

(** ** Concrete inputs *)

Module Examples.

(** [source.splitlines(keepends=True)] for line-feed line ends. *)
Fixpoint keep_lines (s : string) : list string :=
  match s with
  | EmptyString => []
  | String c rest =>
      if Ascii.eqb c Py.newline then String c EmptyString :: keep_lines rest
      else match keep_lines rest with
           | l :: ls => String c l :: ls
           | [] => [String c EmptyString]
           end
  end.

(** The text between two positions, lines counted from 1 and columns from
    0, as [ast.get_source_segment] cuts it out of an ASCII source. *)
Definition segment (source : string) (loc : ast.span) : string :=
  let lines := keep_lines source in
  let first := nth (ast.lineno loc - 1) lines EmptyString in
  if (ast.end_lineno loc =? ast.lineno loc)%nat then
    substring (ast.col_offset loc) (ast.end_col_offset loc - ast.col_offset loc)
      first
  else
    Py.drop (ast.col_offset loc) first
    ++ String.concat EmptyString
         (firstn (ast.end_lineno loc - 1 - ast.lineno loc)
            (skipn (ast.lineno loc) lines))
    ++ substring 0 (ast.end_col_offset loc)
         (nth (ast.end_lineno loc - 1) lines EmptyString).

Definition get_source_segment (source : string) (n : ast.node) : string :=
  match n with
  | ast.ClassDef loc _ _ _ _ _ | ast.FunctionDef loc _ _ | ast.Import loc _
  | ast.ImportFrom loc _ _ | ast.Name loc _ => segment source loc
  | _ => EmptyString
  end.

(** A file with an import inside a [try] statement, ahead of a top-level
    import, and one class that uses both modules. *)
Definition guarded_lines : list string :=
  [ "try:";
    "    import json";
    "except ImportError:";
    "    pass";
    "import os";
    "class A:";
    "    x = os, json" ].

Definition guarded_source : string := Py.join Py.nl guarded_lines.

Definition import_json : ast.node :=
  ast.Import (ast.mkspan 2 4 2 15) [ast.mkalias "json" None].

Definition import_os : ast.node :=
  ast.Import (ast.mkspan 5 0 5 9) [ast.mkalias "os" None].

(** [x = os, json]: an [Assign] with its target and a [Tuple] value. *)
Definition class_A : ast.node :=
  ast.ClassDef (ast.mkspan 6 0 7 16) "A" [] []
    [ ast.Other
        [ ast.Name (ast.mkspan 7 4 7 5) "x";
          ast.Other
            [ ast.Name (ast.mkspan 7 8 7 10) "os";
              ast.Name (ast.mkspan 7 12 7 16) "json";
              ast.Other [] ] ] ]
    [].

(** The tree of [guarded_source]: the [Try] holds the first import and the
    [ExceptHandler], which holds the exception's name and a [Pass]. *)
Definition guarded_tree : ast.node :=
  ast.Module
    [ ast.Other
        [ import_json;
          ast.Other [ ast.Name (ast.mkspan 3 7 3 18) "ImportError"; ast.Other [] ] ];
      import_os;
      class_A ].

(** A file with one import and two classes. *)
Definition shapes_lines : list string :=
  [ "import os";
    "class Circle:";
    "    pass";
    "class Square:";
    "    p = os" ].

Definition shapes_source : string := Py.join Py.nl shapes_lines.

Definition class_Circle : ast.node :=
  ast.ClassDef (ast.mkspan 2 0 3 8) "Circle" [] [] [ast.Other []] [].

Definition class_Square : ast.node :=
  ast.ClassDef (ast.mkspan 4 0 5 10) "Square" [] []
    [ ast.Other
        [ ast.Name (ast.mkspan 5 4 5 5) "p";
          ast.Name (ast.mkspan 5 8 5 10) "os" ] ]
    [].

Definition shapes_tree : ast.node :=
  ast.Module
    [ ast.Import (ast.mkspan 1 0 1 9) [ast.mkalias "os" None];
      class_Circle;
      class_Square ].

(** A text that is not Python. *)
Definition broken_source : string := "class :".

(** [ast.parse] on the texts above; any other text is refused here. *)
Definition parse (source : string) : result ast.node :=
  if String.eqb source guarded_source then Return guarded_tree
  else if String.eqb source shapes_source then Return shapes_tree
  else Raise (SyntaxError "invalid syntax").

(** A regular-expression engine that finds nothing. *)
Definition no_match (pattern content : string) : list string := [].

(** An Angular component, and the same file cut after its decorator line. *)
Definition widget_source : string :=
  Py.join Py.nl ["@Component({})"; "export class Widget {"; "}"].

Definition cut_source : string := "@Component(".

Definition two_line_source : string :=
  Py.join Py.nl ["@Component("; "export class Widget {"].

(** A project directory: the Python file of [shapes_source], two more
    sources, and a target path that cannot be opened. *)
Definition project : filesystem :=
  [ ("/proj/shapes.py", File shapes_source);
    ("/proj/broken.py", File broken_source);
    ("/proj/app.js", File "let x = 1;");
    ("/proj/cut.ts", File cut_source);
    ("/proj/shapes_circle.py", Locked) ].

End Examples.

(** ** Notions the properties are stated with

    File order and the output the specification words; the signature test
    on a line; the records and the invariant the proofs follow. *)

Module Spec.

(** The start of a node that has a position. *)
Definition start (n : ast.node) : nat * nat :=
  match n with
  | ast.ClassDef loc _ _ _ _ _ | ast.FunctionDef loc _ _ | ast.Import loc _
  | ast.ImportFrom loc _ _ | ast.Name loc _ => (ast.lineno loc, ast.col_offset loc)
  | _ => (0, 0)
  end.

(** [a] is not after [b] in the file. *)
Definition not_after (a b : nat * nat) : bool :=
  ((fst a <? fst b) || ((fst a =? fst b) && (snd a <=? snd b)))%nat.

(** File order: each node starts no later than the next. *)
Fixpoint in_file_order (l : list ast.node) : bool :=
  match l with
  | [] => true
  | a :: rest =>
      match rest with
      | [] => true
      | b :: _ => not_after (start a) (start b) && in_file_order rest
      end
  end.

Fixpoint insert_by_start (n : ast.node) (l : list ast.node) : list ast.node :=
  match l with
  | [] => [n]
  | m :: rest =>
      if not_after (start n) (start m) then n :: l
      else m :: insert_by_start n rest
  end.

(** The nodes of [l] put in file order. *)
Definition by_file_order (l : list ast.node) : list ast.node :=
  fold_right insert_by_start [] l.

(** A line on which a pattern of the Angular table is found, and a text
    with such a line. *)
Definition matches_signature (line : string) : bool :=
  existsb (fun p => CodeAnalyzer.re_search (snd p) line) CodeAnalyzer.angular.

Definition has_signature (content : string) : bool :=
  existsb matches_signature (Py.split_lines content).

(** The last line of a text. *)
Definition last_line (content : string) : string :=
  last (Py.split_lines content) EmptyString.

(** The records the TypeScript strategy is to give for the line at index
    [i]: one for each pattern of [table] found on it, named after the line
    that follows. *)
Definition typescript_records (re_finditer : string -> string -> list string)
  (content : string) (lines : list string) (i : nat) (line : string)
  (table : list (string * string)) : list CodeElement :=
  flat_map
    (fun p =>
       if CodeAnalyzer.re_search (snd p) line then
         [ mkCodeElement
             (CodeAnalyzer._extract_name (nth (i + 1) lines EmptyString))
             (fst p) [Py.strip line] (CodeAnalyzer._extract_imports content)
             (CodeAnalyzer._extract_methods re_finditer content) (i + 1) [] ]
       else [])
    table.

(** The same for the lines [todo], the first of which has index [i]. *)
Fixpoint typescript_all (re_finditer : string -> string -> list string)
  (content : string) (lines todo : list string) (i : nat) : list CodeElement :=
  match todo with
  | [] => []
  | line :: rest =>
      (typescript_records re_finditer content lines i line CodeAnalyzer.angular
       ++ typescript_all re_finditer content lines rest (S i))%list
  end.

(** The record of a component found on the line of number [n]. *)
Definition is_component_at (n : nat) (el : CodeElement) : bool :=
  (line_number el =? n)%nat && String.eqb (type el) "component".

(** The import nodes a class refers to, in the order [ast.walk] meets
    them. *)
Definition relevant_imports (get_source_segment : string -> ast.node -> string)
  (source : string) (tree class_node : ast.node) : list ast.node :=
  filter (MainWindow.referenced (get_source_segment source class_node))
    (filter ast.is_Import (ast.walk tree)).

(** Each import statement on a line of its own, then one blank line. *)
Definition import_block (imports : list string) : string :=
  String.concat EmptyString (map (fun i => i ++ Py.nl) imports) ++ Py.nl.

(** The output the specification words: the relevant import statements in
    file order, a blank line, the text of the class. *)
Definition file_order_output
  (get_source_segment : string -> ast.node -> string)
  (source : string) (tree class_node : ast.node) : string :=
  import_block
    (map (get_source_segment source)
       (by_file_order (relevant_imports get_source_segment source tree class_node)))
  ++ get_source_segment source class_node.


(** Whether the character [c] occurs in [s]; a slash never occurs in the
    name of a class that [ast.parse] returns. *)
Fixpoint has_char (c : ascii) (s : string) : bool :=
  match s with
  | EmptyString => false
  | String a rest => Ascii.eqb a c || has_char c rest
  end.

Definition has_slash (s : string) : bool := has_char os_path.sep s.

(** The file name of an output of the splitter: the base name of the file
    that is split, an underscore, the class name in lower case, the
    extension. *)
Definition file_name (path cname : string) : string :=
  MainWindow.base_name_of path ++ "_" ++ Py.lower cname ++ ".py".

(** [w'] comes from [w] by writing files at paths that could be opened and
    by showing boxes: nothing is removed, and no refused path is touched. *)
Definition grown_from (w w' : MainWindow.world) : Prop :=
  exists added boxes,
    MainWindow.disk w' = (added ++ MainWindow.disk w)%list
    /\ MainWindow.shown w' = (MainWindow.shown w ++ boxes)%list
    /\ Forall (fun e => snd e <> Locked
                        /\ lookup (MainWindow.disk w) (fst e) <> Some Locked)
         added.

End Spec.

(* ===================================================================== *)
(** * Part II: properties *)
(* ===================================================================== *)

(** ** [ast.walk] visits every node once *)

Module ast_facts.

Import ast.

Lemma sizes_fix (l : list node) :
  (fix sizes (l : list node) : nat :=
     match l with
     | [] => 0
     | x :: r => size x + sizes r
     end) l = list_sum (map size l).
Proof. induction l as [|x r IH]; simpl; [reflexivity | now rewrite IH]. Qed.

Lemma all_fix (l : list node) :
  (fix all (l : list node) : list node :=
     match l with
     | [] => []
     | x :: r => (subnodes x ++ all r)%list
     end) l = flat_map subnodes l.
Proof. induction l as [|x r IH]; simpl; [reflexivity | now rewrite IH]. Qed.

Lemma sum_fix (l : list node) :
  (fix sum (l : list node) : nat :=
     match l with
     | [] => 0
     | x :: r => count_classes x + sum r
     end) l = list_sum (map count_classes l).
Proof. induction l as [|x r IH]; simpl; [reflexivity | now rewrite IH]. Qed.

Lemma list_sum_map_app {A : Type} (f : A -> nat) (l1 l2 : list A) :
  list_sum (map f (l1 ++ l2)) = list_sum (map f l1) + list_sum (map f l2).
Proof. now rewrite map_app, list_sum_app. Qed.

Lemma aliases_size (names : list alias) :
  list_sum (map size (map Alias names)) = List.length names.
Proof. induction names as [|a r IH]; simpl; [reflexivity | now rewrite IH]. Qed.

Lemma aliases_subnodes (names : list alias) :
  flat_map subnodes (map Alias names) = map Alias names.
Proof. induction names as [|a r IH]; simpl; [reflexivity | now rewrite IH]. Qed.

Lemma aliases_count (names : list alias) :
  list_sum (map count_classes (map Alias names)) = 0.
Proof. induction names as [|a r IH]; simpl; [reflexivity | exact IH]. Qed.

(** A tree is its root and the trees of its children. *)
Lemma size_children (n : node) :
  size n = S (list_sum (map size (iter_child_nodes n))).
Proof.
  destruct n; simpl; rewrite ?sizes_fix, ?list_sum_map_app, ?aliases_size;
    reflexivity.
Qed.

Lemma subnodes_children (n : node) :
  subnodes n = n :: flat_map subnodes (iter_child_nodes n).
Proof.
  destruct n; simpl; rewrite ?all_fix, ?flat_map_app, ?aliases_subnodes;
    reflexivity.
Qed.

Lemma count_children (n : node) :
  count_classes n
  = (if is_ClassDef n then 1 else 0)
    + list_sum (map count_classes (iter_child_nodes n)).
Proof.
  destruct n; simpl; rewrite ?sum_fix, ?list_sum_map_app, ?aliases_count;
    reflexivity.
Qed.

Lemma size_pos (n : node) : 0 < size n.
Proof. rewrite size_children. lia. Qed.

Lemma child_smaller (n c : node) :
  In c (iter_child_nodes n) -> size c < size n.
Proof.
  intros Hin. rewrite (size_children n).
  induction (iter_child_nodes n) as [|x r IH]; simpl in *; [contradiction|].
  destruct Hin as [-> | Hin]; [lia | specialize (IH Hin); lia].
Qed.

(** Induction on a tree through its children. *)
Lemma node_children_ind (P : node -> Prop) :
  (forall n, Forall P (iter_child_nodes n) -> P n) -> forall n, P n.
Proof.
  intros step n.
  remember (size n) as k eqn:Hk.
  revert n Hk. induction k as [k IH] using lt_wf_ind. intros n ->.
  apply step. apply Forall_forall. intros c Hc.
  apply (IH (size c)); [now apply child_smaller | reflexivity].
Qed.

(** The structural count is the number of class definitions among the
    nodes of the tree. *)
Lemma count_classes_subnodes (n : node) :
  count_classes n = List.length (filter is_ClassDef (subnodes n)).
Proof.
  induction n as [n IH] using node_children_ind.
  rewrite count_children, subnodes_children. simpl.
  assert (Hsum : list_sum (map count_classes (iter_child_nodes n))
                 = List.length (filter is_ClassDef
                                  (flat_map subnodes (iter_child_nodes n)))).
  { induction IH as [|c r Hc _ IHr]; simpl; [reflexivity|].
    rewrite filter_app, length_app, <- Hc, IHr. reflexivity. }
  rewrite Hsum. destruct (is_ClassDef n); reflexivity.
Qed.

(** With fuel for every node waiting in the queue or below it, the loop
    yields exactly the nodes of the queued trees. *)
Lemma walk_queue_perm (fuel : nat) (todo : list node) :
  list_sum (map size todo) <= fuel ->
  Permutation (walk_queue fuel todo) (flat_map subnodes todo).
Proof.
  revert todo. induction fuel as [|fuel IH]; intros todo Hfuel.
  - destruct todo as [|n rest]; simpl in *; [constructor|].
    pose proof (size_pos n). lia.
  - destruct todo as [|n rest]; simpl in *; [constructor|].
    rewrite (subnodes_children n). simpl. constructor.
    rewrite size_children in Hfuel.
    assert (Hle : list_sum (map size (rest ++ iter_child_nodes n)) <= fuel)
      by (rewrite list_sum_map_app; lia).
    specialize (IH _ Hle). rewrite flat_map_app in IH.
    eapply Permutation_trans; [exact IH | apply Permutation_app_comm].
Qed.

(** [ast.walk] yields every node of the tree, each once. *)
Lemma walk_perm (n : node) : Permutation (walk n) (subnodes n).
Proof.
  unfold walk.
  pose proof (walk_queue_perm (size n) [n]) as H. simpl in H.
  rewrite app_nil_r, Nat.add_0_r in H. now apply H.
Qed.

Lemma filter_perm {A : Type} (f : A -> bool) (l l' : list A) :
  Permutation l l' -> Permutation (filter f l) (filter f l').
Proof.
  induction 1 as [|x l l' _ IH|x y l|l l' l'' _ IH1 _ IH2]; simpl.
  - constructor.
  - destruct (f x); [now constructor | exact IH].
  - destruct (f x), (f y); try apply Permutation_refl.
    apply perm_swap.
  - eapply Permutation_trans; eassumption.
Qed.

(** The walk meets as many class definitions as the tree holds. *)
Lemma walk_counts_classes (n : node) :
  List.length (filter is_ClassDef (walk n)) = count_classes n.
Proof.
  rewrite count_classes_subnodes.
  apply Permutation_length, filter_perm, walk_perm.
Qed.

End ast_facts.

(** ** The Python strategy *)

Module python_facts.

Import CodeAnalyzer.

(** With the dataclass, every turn of the loop on a class definition adds
    one record, of type [class], carrying the imports of the whole tree;
    the loop ends without a fault. *)
Lemma python_loop_generator (tree : ast.node) (nodes : list ast.node) :
  forall elements,
  exists added,
    python_loop scripts_generator.CodeElement_call tree nodes elements
    = ((elements ++ added)%list, None)
    /\ List.length added = List.length (filter ast.is_ClassDef nodes)
    /\ Forall (fun el => type el = "class" /\ imports el = _get_imports tree)
         added.
Proof.
  induction nodes as [|node rest IH]; intros elements; simpl.
  - exists []. rewrite app_nil_r. repeat split. constructor.
  - destruct node; simpl; try apply IH.
    match goal with
    | |- context [python_loop _ _ _ (elements ++ [?el])%list] =>
        destruct (IH (elements ++ [el])%list) as (added & Heq & Hlen & Hall);
        exists (el :: added)
    end.
    rewrite Heq, <- app_assoc. simpl. repeat split.
    + now rewrite Hlen.
    + constructor; [now split | exact Hall].
Qed.

(** Without a constructor, the first class definition ends the loop with
    nothing added. *)
Lemma python_loop_modular (tree : ast.node) (nodes : list ast.node) :
  forall elements,
    fst (python_loop src_code_element.CodeElement_call tree nodes elements)
    = elements.
Proof.
  induction nodes as [|node rest IH]; intros elements; simpl.
  - reflexivity.
  - destruct node; simpl; try apply IH. reflexivity.
Qed.

Lemma analyze_python_generator (ast_parse : string -> result ast.node)
  (content : string) (tree : ast.node) :
  ast_parse content = Return tree ->
  let elements :=
    _analyze_python ast_parse scripts_generator.CodeElement_call content in
  List.length elements = ast.count_classes tree
  /\ Forall (fun el => type el = "class" /\ imports el = _get_imports tree)
       elements.
Proof.
  intros Hparse. unfold _analyze_python. rewrite Hparse.
  destruct (python_loop_generator tree (ast.walk tree) [])
    as (added & Heq & Hlen & Hall).
  rewrite Heq. simpl. split.
  - rewrite Hlen. apply ast_facts.walk_counts_classes.
  - exact Hall.
Qed.

Lemma analyze_python_modular (ast_parse : string -> result ast.node)
  (content : string) :
  _analyze_python ast_parse src_code_element.CodeElement_call content = [].
Proof.
  unfold _analyze_python. destruct (ast_parse content) as [tree|e].
  - apply python_loop_modular.
  - reflexivity.
Qed.

End python_facts.

(** ** The TypeScript strategy *)

Module typescript_facts.

Import CodeAnalyzer.

Section Patterns.

Variable re_finditer : string -> string -> list string.
Variable content : string.
Variable lines : list string.


(** A line on which no pattern is found leaves the list as it is, whatever
    the class. *)
Lemma patterns_none (call : constructor) (i : nat) (line : string)
  (table : list (string * string)) :
  existsb (fun p => re_search (snd p) line) table = false ->
  forall elements,
    typescript_patterns re_finditer call content lines i line table elements
    = Return elements.
Proof.
  induction table as [|[k p] rest IH]; intros Hnone elements; simpl in *.
  - reflexivity.
  - apply orb_false_iff in Hnone as [Hp Hrest]. rewrite Hp. now apply IH.
Qed.

(** Without a constructor, a line on which a pattern is found ends the call
    with a fault: the index error of the lookahead or the type error of the
    class. *)
Lemma patterns_modular_raise (i : nat) (line : string)
  (table : list (string * string)) :
  existsb (fun p => re_search (snd p) line) table = true ->
  forall elements,
    raises (typescript_patterns re_finditer src_code_element.CodeElement_call
              content lines i line table elements) = true.
Proof.
  induction table as [|[k p] rest IH]; intros Hsome elements; simpl in *.
  - discriminate.
  - destruct (re_search p line) eqn:Hp.
    + unfold Py.getitem. destruct (nth_error lines (i + 1)); reflexivity.
    + now apply IH.
Qed.

(** With the dataclass, a line that has a successor adds its records. *)
Lemma patterns_generator_inner (i : nat) (line next : string)
  (table : list (string * string)) :
  nth_error lines (i + 1) = Some next ->
  forall elements,
    typescript_patterns re_finditer scripts_generator.CodeElement_call
      content lines i line table elements
    = Return (elements
              ++ Spec.typescript_records re_finditer content lines i line table)%list.
Proof.
  intros Hnext.
  induction table as [|[k p] rest IH]; intros elements; simpl.
  - now rewrite app_nil_r.
  - destruct (re_search p line) eqn:Hp.
    + unfold Py.getitem. rewrite Hnext. simpl. rewrite IH, <- app_assoc.
      simpl. rewrite (nth_error_nth _ _ _ Hnext). reflexivity.
    + apply IH.
Qed.

(** With the dataclass, a line without a successor on which a pattern is
    found ends the call with the index error. *)
Lemma patterns_generator_last (i : nat) (line : string)
  (table : list (string * string)) :
  nth_error lines (i + 1) = None ->
  existsb (fun p => re_search (snd p) line) table = true ->
  forall elements,
    typescript_patterns re_finditer scripts_generator.CodeElement_call
      content lines i line table elements
    = Raise (IndexError "list index out of range").
Proof.
  intros Hlast.
  induction table as [|[k p] rest IH]; intros Hsome elements; simpl in *.
  - discriminate.
  - destruct (re_search p line) eqn:Hp.
    + unfold Py.getitem. now rewrite Hlast.
    + now apply IH.
Qed.

Lemma records_none (i : nat) (line : string) (table : list (string * string)) :
  existsb (fun p => re_search (snd p) line) table = false ->
  Spec.typescript_records re_finditer content lines i line table = [].
Proof.
  induction table as [|[k p] rest IH]; intros Hnone; simpl in *.
  - reflexivity.
  - apply orb_false_iff in Hnone as [Hp Hrest]. rewrite Hp. now apply IH.
Qed.

(** Without a constructor, the loop over the lines fails as soon as a line
    has a pattern. *)
Lemma lines_modular_raise (todo : list string) :
  existsb Spec.matches_signature todo = true ->
  forall i elements,
    raises (typescript_lines re_finditer src_code_element.CodeElement_call
              content lines todo i elements) = true.
Proof.
  induction todo as [|line rest IH]; intros Hsome i elements;
    cbn [typescript_lines existsb] in *.
  - discriminate.
  - destruct (Spec.matches_signature line) eqn:Hline.
    + pose proof (patterns_modular_raise i line angular Hline elements) as Hr.
      destruct (typescript_patterns _ _ _ _ _ _ _ _); [discriminate|reflexivity].
    + rewrite (patterns_none _ i line angular Hline). cbn [bind].
      now apply IH.
Qed.

(** With the dataclass: the lines [todo] are the end of [lines], the first
    of them at index [length done].  When the last line has no pattern the
    loop adds the records of every line. *)
Lemma lines_generator_return (todo : list string) :
  forall done elements,
    lines = (done ++ todo)%list ->
    Spec.matches_signature (last todo EmptyString) = false ->
    typescript_lines re_finditer scripts_generator.CodeElement_call
      content lines todo (List.length done) elements
    = Return (elements
              ++ Spec.typescript_all re_finditer content lines todo
                   (List.length done))%list.
Proof.
  induction todo as [|line rest IH]; intros done elements Hlines Hlast.
  - simpl. now rewrite app_nil_r.
  - cbn [typescript_lines Spec.typescript_all].
    destruct rest as [|next rest'].
    + simpl in Hlast.
      rewrite (patterns_none _ _ line angular Hlast).
      rewrite (records_none _ line angular Hlast).
      cbn [bind typescript_lines Spec.typescript_all app].
      now rewrite app_nil_r.
    + assert (Hnext : nth_error lines (List.length done + 1) = Some next).
      { rewrite Hlines, nth_error_app2 by lia.
        replace (List.length done + 1 - List.length done) with 1 by lia.
        reflexivity. }
      rewrite (patterns_generator_inner _ line next angular Hnext).
      cbn [bind].
      specialize (IH (done ++ [line])%list).
      rewrite length_app in IH. cbn [List.length] in IH.
      rewrite Nat.add_1_r in IH.
      rewrite IH.
      * now rewrite <- app_assoc.
      * now rewrite <- app_assoc.
      * exact Hlast.
Qed.

(** With the dataclass, when the last line has a pattern the loop ends with
    the index error. *)
Lemma lines_generator_raise (todo : list string) :
  forall done elements,
    lines = (done ++ todo)%list ->
    todo <> [] ->
    Spec.matches_signature (last todo EmptyString) = true ->
    typescript_lines re_finditer scripts_generator.CodeElement_call
      content lines todo (List.length done) elements
    = Raise (IndexError "list index out of range").
Proof.
  induction todo as [|line rest IH]; intros done elements Hlines Hne Hlast.
  - contradiction.
  - cbn [typescript_lines].
    destruct rest as [|next rest'].
    + simpl in Hlast.
      assert (Hend : nth_error lines (List.length done + 1) = None).
      { apply nth_error_None. rewrite Hlines, length_app. simpl. lia. }
      now rewrite (patterns_generator_last _ line angular Hend Hlast).
    + assert (Hnext : nth_error lines (List.length done + 1) = Some next).
      { rewrite Hlines, nth_error_app2 by lia.
        replace (List.length done + 1 - List.length done) with 1 by lia.
        reflexivity. }
      rewrite (patterns_generator_inner _ line next angular Hnext).
      cbn [bind].
      specialize (IH (done ++ [line])%list).
      rewrite length_app in IH. cbn [List.length] in IH.
      rewrite Nat.add_1_r in IH.
      apply IH.
      * now rewrite <- app_assoc.
      * discriminate.
      * exact Hlast.
Qed.

End Patterns.

End typescript_facts.

Module analyzer_facts.

Import CodeAnalyzer.

Lemma split_lines_nonempty (s : string) : Py.split_lines s <> [].
Proof.
  induction s as [|c rest IH]; simpl; [discriminate|].
  destruct (Ascii.eqb c Py.newline); [discriminate|].
  destruct (Py.split_lines rest); discriminate.
Qed.

(** [scripts/generator.py]: when the last line of the text has no pattern,
    the call returns the records of all the lines. *)
Lemma analyze_typescript_generator_return
  (re_finditer : string -> string -> list string) (content : string) :
  Spec.matches_signature (Spec.last_line content) = false ->
  _analyze_typescript re_finditer scripts_generator.CodeElement_call content
  = Return (Spec.typescript_all re_finditer content (Py.split_lines content)
              (Py.split_lines content) 0).
Proof.
  intros Hlast. unfold _analyze_typescript.
  apply (typescript_facts.lines_generator_return re_finditer content
           (Py.split_lines content) (Py.split_lines content) [] []);
    [reflexivity | exact Hlast].
Qed.

(** [scripts/generator.py]: when the last line of the text has a pattern,
    the call ends with the index error of [lines[i+1]]. *)
Lemma analyze_typescript_generator_raise
  (re_finditer : string -> string -> list string) (content : string) :
  Spec.matches_signature (Spec.last_line content) = true ->
  _analyze_typescript re_finditer scripts_generator.CodeElement_call content
  = Raise (IndexError "list index out of range").
Proof.
  intros Hlast. unfold _analyze_typescript.
  apply (typescript_facts.lines_generator_raise re_finditer content
           (Py.split_lines content) (Py.split_lines content) [] []);
    [reflexivity | apply split_lines_nonempty | exact Hlast].
Qed.

(** [src/code_analyzer.py]: a text with a pattern on any line ends the call
    with a fault. *)
Lemma analyze_typescript_modular_raise
  (re_finditer : string -> string -> list string) (content : string) :
  Spec.has_signature content = true ->
  raises (_analyze_typescript re_finditer src_code_element.CodeElement_call
            content) = true.
Proof.
  intros Hsig. unfold _analyze_typescript.
  now apply typescript_facts.lines_modular_raise.
Qed.

End analyzer_facts.

(** ** The class splitter *)

Module splitter_facts.

Import MainWindow.

Lemma append_assoc (a b c : string) : (a ++ b) ++ c = a ++ (b ++ c).
Proof. induction a as [|x a IH]; simpl; [reflexivity | now rewrite IH]. Qed.

Lemma join_block (imports : list string) (class_content : string) :
  new_content_of imports class_content
  = Spec.import_block imports ++ class_content.
Proof.
  unfold new_content_of, Spec.import_block.
  induction imports as [|i rest IH].
  - reflexivity.
  - change ((i :: rest) ++ [EmptyString; class_content])%list
      with (i :: (rest ++ [EmptyString; class_content]))%list.
    cbn [Py.join map String.concat].
    destruct (rest ++ [EmptyString; class_content])%list as [|x l] eqn:Hrest.
    + destruct rest; discriminate.
    + rewrite IH.
      destruct rest as [|r rest'].
      * cbn [map String.concat]. simpl.
        now rewrite !append_assoc.
      * cbn [map String.concat].
        now rewrite !append_assoc.
Qed.

Lemma drop_app (a b : string) : Py.drop (String.length a) (a ++ b) = b.
Proof. induction a as [|c a IH]; simpl; [now destruct b | exact IH]. Qed.

Lemma write_free (d : filesystem) (p x : string) :
  lookup d p <> Some Locked -> open_write d p x = Return ((p, File x) :: d).
Proof.
  intros Hfree. unfold open_write.
  destruct (lookup d p) as [[data|]|]; try reflexivity. now contradiction Hfree.
Qed.

Lemma write_locked (d : filesystem) (p x : string) :
  lookup d p = Some Locked ->
  open_write d p x
  = Raise (OSError (errno_text "[Errno 13] Permission denied" p)).
Proof. intros Hlocked. unfold open_write. now rewrite Hlocked. Qed.

(** Files written at paths that could be opened leave the refused paths
    refused, and make no path refused. *)
Lemma added_keeps_locked (added d : filesystem) (q : string) :
  Forall (fun e => snd e <> Locked /\ lookup d (fst e) <> Some Locked) added ->
  (lookup (added ++ d)%list q = Some Locked <-> lookup d q = Some Locked).
Proof.
  induction 1 as [|[p e] added [He Hp] _ IH]; simpl; [tauto|].
  destruct (String.eqb_spec p q) as [->|Hne]; [|exact IH].
  simpl in He, Hp. split; intros H.
  - injection H as ->. now contradiction He.
  - now contradiction Hp.
Qed.

Lemma grown_refl (w : world) : Spec.grown_from w w.
Proof.
  exists [], []. repeat split; [now rewrite app_nil_r | constructor].
Qed.

Lemma grown_locked (w w' : world) (q : string) :
  Spec.grown_from w w' ->
  (lookup (disk w') q = Some Locked <-> lookup (disk w) q = Some Locked).
Proof.
  intros (added & boxes & Hd & _ & Hall). rewrite Hd.
  now apply added_keeps_locked.
Qed.

Lemma grown_trans (w1 w2 w3 : world) :
  Spec.grown_from w1 w2 -> Spec.grown_from w2 w3 -> Spec.grown_from w1 w3.
Proof.
  intros H12 H23.
  pose proof (fun q => grown_locked w1 w2 q H12) as Hlocked.
  destruct H12 as (a1 & b1 & Hd1 & Hs1 & Hall1).
  destruct H23 as (a2 & b2 & Hd2 & Hs2 & Hall2).
  exists (a2 ++ a1)%list, (b1 ++ b2)%list. repeat split.
  - now rewrite Hd2, Hd1, app_assoc.
  - now rewrite Hs2, Hs1, app_assoc.
  - apply Forall_app. split; [|exact Hall1].
    eapply Forall_impl; [|exact Hall2]. intros e [He Hp]. split; [exact He|].
    intros Hq. apply Hp. now apply Hlocked.
Qed.

Lemma grown_keeps_file (w w' : world) (e : string * entry) :
  Spec.grown_from w w' -> In e (disk w) -> In e (disk w').
Proof.
  intros (added & boxes & Hd & _ & _) Hin. rewrite Hd.
  apply in_or_app. now right.
Qed.

Lemma grown_keeps_box (w w' : world) (n : notice) :
  Spec.grown_from w w' -> In n (shown w) -> In n (shown w').
Proof.
  intros (added & boxes & _ & Hs & _) Hin. rewrite Hs.
  apply in_or_app. now left.
Qed.

Section Loop.

Variable ast_parse : string -> result ast.node.
Variable get_source_segment : string -> ast.node -> string.
Variables content path : string.

Let turn : world -> ast.node -> world :=
  split_class ast_parse get_source_segment content (base_path_of path)
    (base_name_of path).

(** A turn on a class whose target can be opened writes the file. *)
Lemma turn_written (w : world) (c : ast.node) :
  ast.is_ClassDef c = true ->
  lookup (disk w) (target_of path c) <> Some Locked ->
  disk (turn w c)
  = (target_of path c,
     File (written_text ast_parse get_source_segment content c)) :: disk w
  /\ shown (turn w c)
     = (shown w ++ snd (_get_class_imports ast_parse get_source_segment content c))%list.
Proof.
  intros Hc Hfree. destruct c; try discriminate.
  unfold turn, split_class, written_text, target_of in *. cbn [ast.def_name] in *.
  destruct (_get_class_imports _ _ _ _) as [imports boxes] eqn:Himports.
  cbn [fst snd]. rewrite (write_free _ _ _ Hfree). now split.
Qed.

(** A turn on a class whose target is refused shows the warning and leaves
    the files alone. *)
Lemma turn_failed (w : world) (c : ast.node) :
  ast.is_ClassDef c = true ->
  lookup (disk w) (target_of path c) = Some Locked ->
  disk (turn w c) = disk w
  /\ shown (turn w c)
     = (shown w
        ++ snd (_get_class_imports ast_parse get_source_segment content c)
        ++ [failure_box (ast.def_name c)
              (OSError (errno_text "[Errno 13] Permission denied"
                          (target_of path c)))])%list.
Proof.
  intros Hc Hlocked. destruct c; try discriminate.
  unfold turn, split_class, target_of in *. cbn [ast.def_name] in *.
  destruct (_get_class_imports _ _ _ _) as [imports boxes] eqn:Himports.
  cbn [fst snd]. rewrite (write_locked _ _ _ Hlocked). now split.
Qed.

Lemma turn_grows (w : world) (n : ast.node) : Spec.grown_from w (turn w n).
Proof.
  destruct (ast.is_ClassDef n) eqn:Hn.
  - destruct (lookup (disk w) (target_of path n)) as [[data|]|] eqn:Hl.
    1,3: destruct (turn_written w n Hn) as [Hd Hs]; [congruence|];
         eexists [_], _; repeat split; [exact Hd | exact Hs|];
         constructor; [split; [discriminate | cbn [fst]; congruence] | constructor].
    destruct (turn_failed w n Hn Hl) as [Hd Hs].
    eexists [], _. repeat split; [exact Hd | exact Hs | constructor].
  - replace (turn w n) with w; [apply grown_refl|].
    destruct n; try reflexivity. discriminate.
Qed.

Lemma loop_grows (l : list ast.node) :
  forall w, Spec.grown_from w (fold_left turn l w).
Proof.
  induction l as [|n l IH]; intros w; simpl.
  - apply grown_refl.
  - eapply grown_trans; [apply turn_grows | apply IH].
Qed.

(** Every class of the list whose target can be opened is written. *)
Lemma loop_writes (l : list ast.node) :
  forall w d,
    In d l -> ast.is_ClassDef d = true ->
    lookup (disk w) (target_of path d) <> Some Locked ->
    In (target_of path d,
        File (written_text ast_parse get_source_segment content d))
      (disk (fold_left turn l w)).
Proof.
  induction l as [|n l IH]; intros w d Hin Hd Hfree; simpl in *; [contradiction|].
  destruct Hin as [->|Hin].
  - eapply grown_keeps_file; [apply loop_grows|].
    destruct (turn_written w d Hd Hfree) as [Hdisk _]. rewrite Hdisk. now left.
  - apply IH; try assumption.
    intros Hlocked. apply Hfree.
    now apply (grown_locked w (turn w n) _ (turn_grows w n)).
Qed.

(** Every class of the list whose target is refused is reported. *)
Lemma loop_reports (l : list ast.node) :
  forall w c,
    In c l -> ast.is_ClassDef c = true ->
    lookup (disk w) (target_of path c) = Some Locked ->
    In (failure_box (ast.def_name c)
          (OSError (errno_text "[Errno 13] Permission denied" (target_of path c))))
      (shown (fold_left turn l w)).
Proof.
  induction l as [|n l IH]; intros w c Hin Hc Hlocked; simpl in *; [contradiction|].
  destruct Hin as [->|Hin].
  - eapply grown_keeps_box; [apply loop_grows|].
    destruct (turn_failed w c Hc Hlocked) as [_ Hs]. rewrite Hs.
    apply in_or_app. right. apply in_or_app. right. now left.
  - apply IH; try assumption.
    now apply (grown_locked w (turn w n) _ (turn_grows w n)).
Qed.

(** What [split_classes] does on a readable Python file that parses. *)
Lemma split_classes_run (w : world) (tree : ast.node) :
  open_read (disk w) path = Return content ->
  is_python path = true ->
  ast_parse content = Return tree ->
  split_classes ast_parse get_source_segment (Some path) w
  = show (fold_left turn (filter ast.is_ClassDef (ast.walk tree)) w) success_box.
Proof.
  intros Hread Hpy Hparse. unfold split_classes, split_classes_body.
  rewrite Hread. cbn [bind]. rewrite Hpy, Hparse. reflexivity.
Qed.

End Loop.

End splitter_facts.

(** ** Substrings *)

Module string_facts.

Lemma prefix_split (p s : string) :
  String.prefix p s = true <-> exists post, s = p ++ post.
Proof.
  revert s. induction p as [|c p IH]; intros s; simpl.
  - split; [intros _; now exists s | intros _; now destruct s].
  - destruct s as [|d s].
    + split; [discriminate | intros [post H]; discriminate].
    + simpl. destruct (Ascii.ascii_dec c d) as [->|Hne].
      * rewrite IH. split; intros [post H]; exists post; congruence.
      * split; [discriminate | intros [post H]; congruence].
Qed.

(** [Py.contains hay needle] holds exactly when [needle] is a piece of
    [hay]: some text, then [needle] letter for letter, then some text. *)
Lemma contains_split (hay needle : string) :
  Py.contains hay needle = true
  <-> exists pre post, hay = pre ++ needle ++ post.
Proof.
  induction hay as [|c hay IH]; cbn [Py.contains].
  - rewrite orb_false_r, prefix_split. split.
    + intros [post H]. now exists EmptyString, post.
    + intros (pre & post & H). destruct pre; [now exists post | discriminate].
  - rewrite orb_true_iff, prefix_split, IH. split.
    + intros [[post H] | (pre & post & H)].
      * now exists EmptyString, post.
      * exists (String c pre), post. simpl. now rewrite H.
    + intros (pre & post & H). destruct pre as [|d pre]; simpl in H.
      * left. now exists post.
      * right. exists pre, post. congruence.
Qed.

End string_facts.

Module imports_facts.

Import MainWindow.

(** The loop of [_get_class_imports] keeps the texts of the import nodes
    that are referenced, in the order of the walk. *)
Lemma kept_texts (get_source_segment : string -> ast.node -> string)
  (source class_content : string) (nodes : list ast.node) :
  flat_map
    (fun node =>
       if ast.is_Import node then
         if referenced class_content node then [get_source_segment source node]
         else []
       else [])
    nodes
  = map (get_source_segment source)
      (filter (referenced class_content) (filter ast.is_Import nodes)).
Proof.
  induction nodes as [|n rest IH]; simpl; [reflexivity|].
  destruct (ast.is_Import n); simpl; [|exact IH].
  destruct (referenced class_content n); simpl; now rewrite IH.
Qed.

Lemma class_imports_value (ast_parse : string -> result ast.node)
  (get_source_segment : string -> ast.node -> string)
  (source : string) (tree class_node : ast.node) :
  ast_parse source = Return tree ->
  _get_class_imports ast_parse get_source_segment source class_node
  = (map (get_source_segment source)
       (Spec.relevant_imports get_source_segment source tree class_node),
     []).
Proof.
  intros Hparse. unfold _get_class_imports, Spec.relevant_imports.
  rewrite Hparse. now rewrite kept_texts.
Qed.

(** An import node is referenced when one of its names is a piece of the
    text of the class. *)
Lemma referenced_split (class_content : string) (node : ast.node) :
  referenced class_content node = true
  <-> exists name,
        In name (_get_imported_names node)
        /\ exists pre post, class_content = pre ++ name ++ post.
Proof.
  unfold referenced. rewrite existsb_exists.
  split; intros (name & Hin & H); exists name; split; try assumption;
    now apply string_facts.contains_split.
Qed.

End imports_facts.

(* ===================================================================== *)
(** * Part III: the claims *)
(* ===================================================================== *)

Import CodeAnalyzer MainWindow.

(** ** C1 *)

(** C1.  The claim: a valid Python text with N class definitions gives N
    records, each of type [class].  In [src/src] the class [CodeElement]
    has no constructor, so the analysis of the two-class file
    [Examples.shapes_source] returns no record at all;
    [scripts/generator.py], where the class is a dataclass, returns the
    two. *)
Theorem modular_python_analysis_loses_classes :
  Examples.parse Examples.shapes_source = Return Examples.shapes_tree
  /\ ast.count_classes Examples.shapes_tree = 2
  /\ _analyze_python Examples.parse (CodeElement_of Modular)
       Examples.shapes_source = []
  /\ map (fun el => (name el, type el))
       (_analyze_python Examples.parse (CodeElement_of Generator)
          Examples.shapes_source)
     = [("Circle", "class"); ("Square", "class")].
Proof. repeat split. Qed.

(** ** C2 *)

(** C2.  The claim: no fault escapes the extractor.  In both editions
    [analyze_file] lets three faults through: the attribute error of the
    missing [_analyze_javascript] for a [.js] file, the index error of the
    lookahead for a TypeScript file that ends on a decorator line, and the
    error of [open] for a file that is not there.  A text that is not
    Python does give the empty list. *)
Theorem analyze_file_lets_faults_escape (ed : edition) :
  analyze_file Examples.parse Examples.no_match (CodeElement_of ed)
    Examples.project "/proj/app.js"
  = Raise (AttributeError
             "'CodeAnalyzer' object has no attribute '_analyze_javascript'")
  /\ analyze_file Examples.parse Examples.no_match (CodeElement_of ed)
       Examples.project "/proj/cut.ts"
     = Raise (IndexError "list index out of range")
  /\ analyze_file Examples.parse Examples.no_match (CodeElement_of ed)
       Examples.project "/proj/gone.py"
     = Raise (OSError "[Errno 2] No such file or directory: '/proj/gone.py'")
  /\ analyze_file Examples.parse Examples.no_match (CodeElement_of ed)
       Examples.project "/proj/broken.py"
     = Return [].
Proof. destruct ed; repeat split. Qed.

(** ** C3 *)

(** C3.  The claim: a signature on the last line gives no record and no
    index error.  In both editions the text [@Component(], whose only line
    is its last, ends [_analyze_typescript] with the index error of
    [lines[i+1]]: the lookup is not guarded. *)
Theorem signature_on_last_line_raises (ed : edition) :
  Py.split_lines Examples.cut_source = ["@Component("]
  /\ Spec.matches_signature (Spec.last_line Examples.cut_source) = true
  /\ _analyze_typescript Examples.no_match (CodeElement_of ed)
       Examples.cut_source
     = Raise (IndexError "list index out of range").
Proof. destruct ed; repeat split. Qed.

(** ** C4 *)

(** C4.  In either edition, every record that one analysis of a valid
    Python text returns carries the import list of the whole tree, so any
    two records of the call have equal [imports]. *)
Theorem imports_equal_across_records (ed : edition)
  (ast_parse : string -> result ast.node) (content : string)
  (tree : ast.node) (r1 r2 : CodeElement) :
  ast_parse content = Return tree ->
  In r1 (_analyze_python ast_parse (CodeElement_of ed) content) ->
  In r2 (_analyze_python ast_parse (CodeElement_of ed) content) ->
  imports r1 = imports r2 /\ imports r1 = _get_imports tree.
Proof.
  intros Hparse H1 H2. destruct ed; simpl in H1, H2.
  - rewrite python_facts.analyze_python_modular in H1. contradiction.
  - destruct (python_facts.analyze_python_generator ast_parse content tree Hparse)
      as [_ Hall].
    rewrite Forall_forall in Hall.
    destruct (Hall r1 H1) as [_ E1]. destruct (Hall r2 H2) as [_ E2].
    split; congruence.
Qed.

Lemma imports_equal_across_records_witness :
  imports (mkCodeElement "Circle" "class" [] ["os"] [] 2 [])
  = imports (mkCodeElement "Square" "class" [] ["os"] [] 4 ["p"; "os"])
  /\ imports (mkCodeElement "Circle" "class" [] ["os"] [] 2 [])
     = _get_imports Examples.shapes_tree.
Proof.
  apply (imports_equal_across_records Generator Examples.parse
           Examples.shapes_source Examples.shapes_tree).
  - reflexivity.
  - vm_compute. left. reflexivity.
  - vm_compute. right. left. reflexivity.
Defined.

(** ** C5 *)

(** C5.  The claim: a line with [@Component(] followed by the line
    [export class Widget {] gives one record, a [component] named
    [Widget].  In [src/src] the call of [CodeElement] fails, so the
    two-line text ends [_analyze_typescript] with a type error and no
    record; [scripts/generator.py] returns the record. *)
Theorem modular_component_is_lost :
  Py.split_lines Examples.two_line_source
  = ["@Component("; "export class Widget {"]
  /\ _analyze_typescript Examples.no_match (CodeElement_of Modular)
       Examples.two_line_source
     = Raise (TypeError "CodeElement() takes no arguments")
  /\ _analyze_typescript Examples.no_match (CodeElement_of Generator)
       Examples.two_line_source
     = Return [mkCodeElement "Widget" "component" ["@Component("] [] [] 1 []].
Proof. repeat split. Qed.

(** ** C6 *)

(** C6.  When the text of the selected file does not parse,
    [split_classes] writes nothing: every file is as it was.  For a Python
    file (the only kind the splitter parses) the run ends there, with the
    failure shown in one critical box and no success box. *)
Theorem split_aborts_when_parse_fails
  (ast_parse : string -> result ast.node)
  (get_source_segment : string -> ast.node -> string)
  (path content : string) (e : exception) (w : world) :
  open_read (disk w) path = Return content ->
  ast_parse content = Raise e ->
  let w' := split_classes ast_parse get_source_segment (Some path) w in
  disk w' = disk w
  /\ (is_python path = true ->
      shown w'
      = (shown w
         ++ [critical "Error"
               ("Failed to split classes: " ++ str_of_exception e)])%list).
Proof.
  intros Hread Hparse. unfold split_classes, split_classes_body.
  rewrite Hread. cbn [bind]. destruct (is_python path).
  - rewrite Hparse. now split.
  - split; [reflexivity | discriminate].
Qed.

Lemma split_aborts_when_parse_fails_witness :
  let w' :=
    split_classes Examples.parse Examples.get_source_segment
      (Some "/proj/broken.py") (mkworld Examples.project []) in
  disk w' = Examples.project
  /\ shown w' = [critical "Error" "Failed to split classes: invalid syntax"].
Proof.
  destruct (split_aborts_when_parse_fails Examples.parse
              Examples.get_source_segment "/proj/broken.py"
              Examples.broken_source (SyntaxError "invalid syntax")
              (mkworld Examples.project []) eq_refl eq_refl) as [Hdisk Hshown].
  split; [exact Hdisk | exact (Hshown eq_refl)].
Defined.

(** ** C7 *)

Lemma bound_path (fs : filesystem) (p : string) (e : entry) :
  In (p, e) fs -> exists e', lookup fs p = Some e'.
Proof.
  induction fs as [|[q x] fs IH]; simpl; [contradiction|].
  intros [H|H].
  - injection H as -> ->. rewrite String.eqb_refl. now exists e.
  - destruct (String.eqb q p); [now exists x | now apply IH].
Qed.

(** C7.  In a split of a Python file that parses, let [c] be a class whose
    output file cannot be opened.  The failure of [c] is shown in a warning
    box, and the loop goes on: each class [d] after [c] is written when its
    own file can be opened (the write is in the file system, and a file is
    at its path) and reported when it cannot; the run ends with the success
    box. *)
Theorem split_continues_after_failed_write
  (ast_parse : string -> result ast.node)
  (get_source_segment : string -> ast.node -> string)
  (path content : string) (tree : ast.node) (w : world)
  (pre post : list ast.node) (c : ast.node) :
  open_read (disk w) path = Return content ->
  is_python path = true ->
  ast_parse content = Return tree ->
  filter ast.is_ClassDef (ast.walk tree) = (pre ++ c :: post)%list ->
  lookup (disk w) (target_of path c) = Some Locked ->
  let w' := split_classes ast_parse get_source_segment (Some path) w in
  let refused (d : ast.node) :=
    failure_box (ast.def_name d)
      (OSError (errno_text "[Errno 13] Permission denied" (target_of path d))) in
  In (refused c) (shown w')
  /\ (forall d, In d post ->
        lookup (disk w) (target_of path d) <> Some Locked ->
        In (target_of path d,
            File (written_text ast_parse get_source_segment content d))
          (disk w')
        /\ exists data, lookup (disk w') (target_of path d) = Some (File data))
  /\ (forall d, In d post ->
        lookup (disk w) (target_of path d) = Some Locked ->
        In (refused d) (shown w'))
  /\ exists boxes, shown w' = (shown w ++ boxes ++ [success_box])%list.
Proof.
  intros Hread Hpy Hparse Hclasses Hlocked w' refused.
  assert (Hw' : w' = show (fold_left
                             (split_class ast_parse get_source_segment content
                                (base_path_of path) (base_name_of path))
                             (pre ++ c :: post)%list w) success_box).
  { unfold w'. rewrite <- Hclasses.
    now apply splitter_facts.split_classes_run. }
  assert (Hclass : forall d, In d (pre ++ c :: post)%list -> ast.is_ClassDef d = true).
  { intros d Hd. rewrite <- Hclasses in Hd. now apply filter_In in Hd. }
  assert (Hpost : forall d, In d post -> In d (pre ++ c :: post)%list).
  { intros d Hd. apply in_or_app. right. now right. }
  pose proof (splitter_facts.loop_grows ast_parse get_source_segment content
                path (pre ++ c :: post)%list w) as Hgrown.
  rewrite Hw'. cbn [show disk shown]. split; [|split; [|split]].
  - apply in_or_app. left.
    apply splitter_facts.loop_reports; try assumption.
    + apply in_or_app. right. now left.
    + apply Hclass. apply in_or_app. right. now left.
  - intros d Hd Hfree.
    assert (Hin : In (target_of path d,
                      File (written_text ast_parse get_source_segment content d))
                    (disk (fold_left
                             (split_class ast_parse get_source_segment content
                                (base_path_of path) (base_name_of path))
                             (pre ++ c :: post)%list w)))
      by (apply splitter_facts.loop_writes; auto).
    split; [exact Hin|].
    destruct (bound_path _ _ _ Hin) as [[data|] He].
    + now exists data.
    + exfalso. apply Hfree.
      now apply (splitter_facts.grown_locked _ _ _ Hgrown).
  - intros d Hd Hl. apply in_or_app. left.
    apply splitter_facts.loop_reports; auto.
  - destruct Hgrown as (added & boxes & _ & Hs & _).
    exists boxes. rewrite Hs. now rewrite <- app_assoc.
Qed.

Lemma split_continues_after_failed_write_witness :
  let w' :=
    split_classes Examples.parse Examples.get_source_segment
      (Some "/proj/shapes.py") (mkworld Examples.project []) in
  In (warning "Warning"
        "Failed to process class Circle: [Errno 13] Permission denied: '/proj/shapes_circle.py'")
    (shown w')
  /\ In ("/proj/shapes_square.py",
         File (Py.join Py.nl ["import os"; ""; "class Square:"; "    p = os"]))
       (disk w')
  /\ exists data, lookup (disk w') "/proj/shapes_square.py" = Some (File data).
Proof.
  destruct (split_continues_after_failed_write Examples.parse
              Examples.get_source_segment "/proj/shapes.py"
              Examples.shapes_source Examples.shapes_tree
              (mkworld Examples.project []) [] [Examples.class_Square]
              Examples.class_Circle eq_refl eq_refl eq_refl eq_refl eq_refl)
    as (Hc & Hd & _ & _).
  split; [exact Hc|].
  apply (Hd Examples.class_Square).
  - left. reflexivity.
  - vm_compute. discriminate.
Defined.

(** ** C8 *)

(** C8, the claim as stated, fails on [Examples.guarded_source].  The class
    [A] refers to both modules; the import of [json] is on line 2, inside
    the [try] statement, and the import of [os] on line 5.  [ast.walk]
    meets the top-level import first, so the splitter keeps
    [import os] ahead of [import json], which is not the order of the
    file. *)
Lemma class_imports_not_in_file_order :
  Examples.parse Examples.guarded_source = Return Examples.guarded_tree
  /\ In Examples.class_A (ast.walk Examples.guarded_tree)
  /\ fst (_get_class_imports Examples.parse Examples.get_source_segment
            Examples.guarded_source Examples.class_A)
     = ["import os"; "import json"]
  /\ map (Examples.get_source_segment Examples.guarded_source)
       (Spec.by_file_order
          (Spec.relevant_imports Examples.get_source_segment
             Examples.guarded_source Examples.guarded_tree Examples.class_A))
     = ["import json"; "import os"]
  /\ Spec.in_file_order
       (Spec.relevant_imports Examples.get_source_segment
          Examples.guarded_source Examples.guarded_tree Examples.class_A)
     = false
  /\ fst (_get_class_imports Examples.parse Examples.get_source_segment
            Examples.guarded_source Examples.class_A)
     <> map (Examples.get_source_segment Examples.guarded_source)
          (Spec.by_file_order
             (Spec.relevant_imports Examples.get_source_segment
                Examples.guarded_source Examples.guarded_tree Examples.class_A)).
Proof.
  repeat split.
  - vm_compute. do 3 right. left. reflexivity.
  - vm_compute. discriminate.
Qed.

(** C8, amended.  For a class node of a Python text that parses, the
    imports [_get_class_imports] returns are the texts of the import nodes
    it keeps, in the order in which [ast.walk] meets them; and an import
    node of the tree is kept exactly when one of its imported names (the
    [name] of an alias of the statement) is a piece of the text of the
    class: some text, the name letter for letter, some text. *)
Theorem class_imports_in_walk_order
  (ast_parse : string -> result ast.node)
  (get_source_segment : string -> ast.node -> string)
  (source : string) (tree class_node : ast.node) :
  ast_parse source = Return tree ->
  let class_content := get_source_segment source class_node in
  let kept :=
    filter (referenced class_content) (filter ast.is_Import (ast.walk tree)) in
  fst (_get_class_imports ast_parse get_source_segment source class_node)
  = map (get_source_segment source) kept
  /\ forall node,
       In node kept
       <-> In node (ast.walk tree)
           /\ ast.is_Import node = true
           /\ exists name,
                In name (_get_imported_names node)
                /\ exists pre post, class_content = pre ++ name ++ post.
Proof.
  intros Hparse class_content kept. split.
  - now rewrite (imports_facts.class_imports_value _ _ _ tree).
  - intros node. unfold kept.
    rewrite !filter_In, imports_facts.referenced_split. tauto.
Qed.

Lemma class_imports_in_walk_order_witness :
  fst (_get_class_imports Examples.parse Examples.get_source_segment
         Examples.guarded_source Examples.class_A)
  = map (Examples.get_source_segment Examples.guarded_source)
      [Examples.import_os; Examples.import_json].
Proof.
  exact (proj1 (class_imports_in_walk_order Examples.parse
                  Examples.get_source_segment Examples.guarded_source
                  Examples.guarded_tree Examples.class_A eq_refl)).
Defined.

(** ** C9 *)

(** C9, the claim as stated, fails on [Examples.guarded_source]: the text
    written for the class [A] starts with [import os] and then
    [import json], while the import statements in file order are
    [import json] and then [import os]. *)
Lemma split_output_not_in_file_order :
  written_text Examples.parse Examples.get_source_segment
    Examples.guarded_source Examples.class_A
  = Py.join Py.nl
      ["import os"; "import json"; ""; "class A:"; "    x = os, json"]
  /\ Spec.file_order_output Examples.get_source_segment
       Examples.guarded_source Examples.guarded_tree Examples.class_A
     = Py.join Py.nl
         ["import json"; "import os"; ""; "class A:"; "    x = os, json"]
  /\ written_text Examples.parse Examples.get_source_segment
       Examples.guarded_source Examples.class_A
     <> Spec.file_order_output Examples.get_source_segment
          Examples.guarded_source Examples.guarded_tree Examples.class_A.
Proof. repeat split. vm_compute. discriminate. Qed.

(** C9, amended.  For a class of a Python text that parses, whose output
    file can be opened, the turn of the loop writes one file.  Its text is
    the block of the relevant import statements, each followed by a line
    feed, in the order in which [ast.walk] meets them, then one more line
    feed (the blank line), then the source segment of the class; cutting
    the block off the front gives the source segment back, letter for
    letter. *)
Theorem split_output_layout
  (ast_parse : string -> result ast.node)
  (get_source_segment : string -> ast.node -> string)
  (path content : string) (tree class_node : ast.node) (w : world) :
  ast_parse content = Return tree ->
  ast.is_ClassDef class_node = true ->
  lookup (disk w) (target_of path class_node) <> Some Locked ->
  let class_content := get_source_segment content class_node in
  let block :=
    Spec.import_block
      (map (get_source_segment content)
         (Spec.relevant_imports get_source_segment content tree class_node)) in
  disk (split_class ast_parse get_source_segment content (base_path_of path)
          (base_name_of path) w class_node)
  = (target_of path class_node, File (block ++ class_content)) :: disk w
  /\ Py.drop (String.length block) (block ++ class_content) = class_content.
Proof.
  intros Hparse Hclass Hfree class_content block. split.
  - destruct (splitter_facts.turn_written ast_parse get_source_segment content
                path w class_node Hclass Hfree) as [Hdisk _].
    rewrite Hdisk. unfold written_text.
    rewrite (imports_facts.class_imports_value _ _ _ tree) by assumption.
    cbn [fst]. now rewrite splitter_facts.join_block.
  - apply splitter_facts.drop_app.
Qed.

Lemma split_output_layout_witness :
  disk (split_class Examples.parse Examples.get_source_segment
          Examples.shapes_source "/proj" "shapes"
          (mkworld Examples.project []) Examples.class_Square)
  = ("/proj/shapes_square.py",
     File (Py.join Py.nl ["import os"; ""; "class Square:"; "    p = os"]))
      :: Examples.project
  /\ Py.drop 11
       (Py.join Py.nl ["import os"; ""; "class Square:"; "    p = os"])
     = Py.join Py.nl ["class Square:"; "    p = os"].
Proof.
  refine (split_output_layout Examples.parse Examples.get_source_segment
            "/proj/shapes.py" Examples.shapes_source Examples.shapes_tree
            Examples.class_Square (mkworld Examples.project [])
            eq_refl eq_refl _).
  vm_compute. discriminate.
Defined.

(** ** C10 *)

(** C10.  In the modular sources the call of [CodeElement] with the
    seven keyword arguments always raises a type error.  So
    [_analyze_python] of [src/src/code_analyzer.py] returns the empty list
    for every text, whether it parses or not, and [_analyze_typescript]
    raises for every text that has a signature on one of its lines. *)
Theorem modular_analyzer_without_constructor
  (ast_parse : string -> result ast.node)
  (re_finditer : string -> string -> list string) (content : string) :
  (forall name type decorators imports methods line_number dependencies,
      src_code_element.CodeElement_call name type decorators imports methods
        line_number dependencies
      = Raise (TypeError "CodeElement() takes no arguments"))
  /\ _analyze_python ast_parse (CodeElement_of Modular) content = []
  /\ (Spec.has_signature content = true ->
      raises (_analyze_typescript re_finditer (CodeElement_of Modular) content)
      = true).
Proof.
  repeat split.
  - apply python_facts.analyze_python_modular.
  - apply analyzer_facts.analyze_typescript_modular_raise.
Qed.

Lemma modular_analyzer_without_constructor_witness :
  Spec.has_signature Examples.widget_source = true
  /\ raises (_analyze_typescript Examples.no_match (CodeElement_of Modular)
               Examples.widget_source) = true.
Proof.
  split; [reflexivity|].
  apply (proj2 (proj2 (modular_analyzer_without_constructor Examples.parse
                         Examples.no_match Examples.widget_source))).
  reflexivity.
Defined.

(* ===================================================================== *)
(** * Part IV: further properties of the two editions *)
(* ===================================================================== *)

(** In [scripts/generator.py] the analysis of a Python text that parses
    returns as many records as the tree has class definitions, nested ones
    included, each of type [class]. *)
Theorem generator_python_analysis_counts_classes
  (ast_parse : string -> result ast.node) (content : string)
  (tree : ast.node) :
  ast_parse content = Return tree ->
  let elements := _analyze_python ast_parse (CodeElement_of Generator) content in
  List.length elements = ast.count_classes tree
  /\ Forall (fun el => type el = "class") elements.
Proof.
  intros Hparse elements.
  destruct (python_facts.analyze_python_generator ast_parse content tree Hparse)
    as [Hlen Hall].
  split; [exact Hlen|].
  eapply Forall_impl; [|exact Hall]. now intros el [Ht _].
Qed.

Lemma generator_python_analysis_counts_classes_witness :
  List.length
    (_analyze_python Examples.parse (CodeElement_of Generator)
       Examples.shapes_source) = 2.
Proof.
  exact (proj1 (generator_python_analysis_counts_classes Examples.parse
                  Examples.shapes_source Examples.shapes_tree eq_refl)).
Defined.

(** In either edition, a text that does not parse gives the empty list,
    through [analyze_file] too when the file can be read and its extension
    is [.py]. *)
Theorem invalid_python_gives_no_record (ed : edition)
  (ast_parse : string -> result ast.node)
  (re_finditer : string -> string -> list string)
  (fs : filesystem) (path content : string) (e : exception) :
  open_read fs path = Return content ->
  snd (os_path.splitext path) = ".py" ->
  ast_parse content = Raise e ->
  _analyze_python ast_parse (CodeElement_of ed) content = []
  /\ analyze_file ast_parse re_finditer (CodeElement_of ed) fs path = Return [].
Proof.
  intros Hread Hext Hparse.
  assert (H : _analyze_python ast_parse (CodeElement_of ed) content = [])
    by (unfold _analyze_python; now rewrite Hparse).
  split; [exact H|].
  unfold analyze_file, _read_file. rewrite Hread. cbn [bind].
  rewrite Hext. cbn. now rewrite H.
Qed.

Lemma invalid_python_gives_no_record_witness :
  analyze_file Examples.parse Examples.no_match (CodeElement_of Modular)
    Examples.project "/proj/broken.py" = Return [].
Proof.
  exact (proj2 (invalid_python_gives_no_record Modular Examples.parse
                  Examples.no_match Examples.project "/proj/broken.py"
                  Examples.broken_source (SyntaxError "invalid syntax")
                  eq_refl eq_refl eq_refl)).
Defined.

Lemma last_matches (l : list string) :
  l <> [] ->
  Spec.matches_signature (last l EmptyString) = true ->
  existsb Spec.matches_signature l = true.
Proof.
  induction l as [|x l IH]; intros Hne Hlast; [contradiction|].
  cbn [existsb]. destruct l as [|y l'].
  - simpl in Hlast. now rewrite Hlast.
  - rewrite IH; [apply orb_true_r | discriminate | exact Hlast].
Qed.

(** A TypeScript text whose last line has a signature makes the extractor
    fail in either edition; in [scripts/generator.py] the fault is the
    index error of the lookahead. *)
Theorem last_line_signature_always_raises (ed : edition)
  (re_finditer : string -> string -> list string) (content : string) :
  Spec.matches_signature (Spec.last_line content) = true ->
  raises (_analyze_typescript re_finditer (CodeElement_of ed) content) = true
  /\ _analyze_typescript re_finditer (CodeElement_of Generator) content
     = Raise (IndexError "list index out of range").
Proof.
  intros Hlast.
  pose proof (analyzer_facts.analyze_typescript_generator_raise re_finditer
                content Hlast) as Hgen.
  split; [|exact Hgen].
  destruct ed; cbn [CodeElement_of].
  - apply analyzer_facts.analyze_typescript_modular_raise.
    apply last_matches; [apply analyzer_facts.split_lines_nonempty | exact Hlast].
  - now rewrite Hgen.
Qed.

Lemma last_line_signature_always_raises_witness :
  _analyze_typescript Examples.no_match (CodeElement_of Generator)
    Examples.cut_source
  = Raise (IndexError "list index out of range").
Proof.
  exact (proj2 (last_line_signature_always_raises Generator Examples.no_match
                  Examples.cut_source eq_refl)).
Defined.

(** A Python file that parses and holds no class definition: the splitter
    writes nothing and shows the success box. *)
Theorem split_without_classes
  (ast_parse : string -> result ast.node)
  (get_source_segment : string -> ast.node -> string)
  (path content : string) (tree : ast.node) (w : world) :
  open_read (disk w) path = Return content ->
  is_python path = true ->
  ast_parse content = Return tree ->
  ast.count_classes tree = 0 ->
  split_classes ast_parse get_source_segment (Some path) w = show w success_box.
Proof.
  intros Hread Hpy Hparse Hnone.
  rewrite (splitter_facts.split_classes_run ast_parse get_source_segment
             content path w tree Hread Hpy Hparse).
  rewrite <- ast_facts.walk_counts_classes in Hnone.
  apply length_zero_iff_nil in Hnone. now rewrite Hnone.
Qed.

Lemma split_without_classes_witness :
  split_classes (fun _ => Return (ast.Module [])) Examples.get_source_segment
    (Some "/proj/broken.py") (mkworld Examples.project [])
  = show (mkworld Examples.project []) success_box.
Proof.
  exact (split_without_classes (fun _ => Return (ast.Module []))
           Examples.get_source_segment "/proj/broken.py" Examples.broken_source
           (ast.Module []) (mkworld Examples.project [])
           eq_refl eq_refl eq_refl eq_refl).
Defined.

Module component_facts.

Section Records.

Variable re_finditer : string -> string -> list string.
Variable content : string.
Variable lines : list string.

Lemma all_app (a b : list string) (i : nat) :
  Spec.typescript_all re_finditer content lines (a ++ b)%list i
  = (Spec.typescript_all re_finditer content lines a i
     ++ Spec.typescript_all re_finditer content lines b (i + List.length a))%list.
Proof.
  revert i. induction a as [|x a IH]; intros i; cbn [app Spec.typescript_all List.length].
  - now rewrite Nat.add_0_r.
  - rewrite IH, <- app_assoc. cbn [Nat.add].
    now rewrite Nat.add_succ_r.
Qed.

Lemma all_cons (x : string) (r : list string) (i : nat) :
  Spec.typescript_all re_finditer content lines (x :: r) i
  = (Spec.typescript_records re_finditer content lines i x angular
     ++ Spec.typescript_all re_finditer content lines r (S i))%list.
Proof. reflexivity. Qed.

(** The records of the line at index [i] bear the line number [i + 1]. *)
Lemma records_numbered (i : nat) (line : string)
  (table : list (string * string)) :
  Forall (fun el => line_number el = i + 1)
    (Spec.typescript_records re_finditer content lines i line table).
Proof.
  induction table as [|[k p] rest IH]; cbn [Spec.typescript_records flat_map snd].
  - constructor.
  - destruct (re_search p line); cbn [app]; [constructor; [reflexivity|]|];
      exact IH.
Qed.

Lemma all_numbered (todo : list string) :
  forall i,
    Forall (fun el => i < line_number el)
      (Spec.typescript_all re_finditer content lines todo i).
Proof.
  induction todo as [|line rest IH]; intros i; cbn [Spec.typescript_all].
  - constructor.
  - apply Forall_app. split.
    + eapply Forall_impl; [|apply records_numbered]. intros el H. cbn in H. lia.
    + eapply Forall_impl; [|apply IH]. intros el H. cbn in H. lia.
Qed.

Lemma all_numbered_below (todo : list string) :
  forall i,
    Forall (fun el => line_number el <= i + List.length todo)
      (Spec.typescript_all re_finditer content lines todo i).
Proof.
  induction todo as [|line rest IH]; intros i; cbn [Spec.typescript_all List.length].
  - constructor.
  - apply Forall_app. split.
    + eapply Forall_impl; [|apply records_numbered]. intros el H. cbn in H. lia.
    + eapply Forall_impl; [|apply IH]. intros el H. cbn in H. lia.
Qed.

Lemma filter_none {A : Type} (f : A -> bool) (l : list A) :
  Forall (fun x => f x = false) l -> filter f l = [].
Proof.
  induction 1 as [|x l Hx _ IH]; simpl; [reflexivity|]. now rewrite Hx.
Qed.

Lemma no_component_elsewhere (n : nat) (l : list CodeElement) :
  Forall (fun el => line_number el <> n) l ->
  filter (Spec.is_component_at n) l = [].
Proof.
  intros H. apply filter_none. eapply Forall_impl; [|exact H].
  intros el Hne. unfold Spec.is_component_at.
  apply Nat.eqb_neq in Hne. now rewrite Hne.
Qed.

(** On a line with [@Component(], the Angular table gives one record of
    type [component]. *)
Lemma one_component (i : nat) (line : string) :
  re_search "@Component(" line = true ->
  filter (Spec.is_component_at (i + 1))
    (Spec.typescript_records re_finditer content lines i line angular)
  = [ mkCodeElement (_extract_name (nth (i + 1) lines EmptyString))
        "component" [Py.strip line] (_extract_imports content)
        (_extract_methods re_finditer content) (i + 1) [] ].
Proof.
  intros Hc. unfold Spec.typescript_records, angular.
  cbn [flat_map fst snd]. rewrite Hc.
  destruct (re_search "@Injectable(" line), (re_search "@NgModule(" line),
    (re_search "@Pipe(" line);
    cbn [app filter]; unfold Spec.is_component_at; cbn [line_number type];
    rewrite Nat.eqb_refl; reflexivity.
Qed.

End Records.

End component_facts.

(** In [scripts/generator.py]: a line with [@Component(] followed by the
    line [export class Widget {], in a text whose last line has no
    signature, gives exactly one record of type [component] for that line,
    and its name is [Widget]. *)
Theorem generator_component_named_widget
  (re_finditer : string -> string -> list string) (content line : string)
  (pre post : list string) :
  Py.split_lines content
  = (pre ++ line :: "export class Widget {" :: post)%list ->
  re_search "@Component(" line = true ->
  Spec.matches_signature (Spec.last_line content) = false ->
  exists elements,
    _analyze_typescript re_finditer (CodeElement_of Generator) content
    = Return elements
    /\ filter (Spec.is_component_at (List.length pre + 1)) elements
       = [ mkCodeElement "Widget" "component" [Py.strip line]
             (_extract_imports content) (_extract_methods re_finditer content)
             (List.length pre + 1) [] ].
Proof.
  intros Hlines Hc Hlast.
  eexists. split.
  - now apply analyzer_facts.analyze_typescript_generator_return.
  - rewrite Hlines at 2.
    rewrite component_facts.all_app, component_facts.all_cons.
    cbn [Nat.add]. rewrite !filter_app.
    rewrite (component_facts.no_component_elsewhere (List.length pre + 1)
               (Spec.typescript_all _ _ _ pre 0)).
    2:{ eapply Forall_impl; [|apply component_facts.all_numbered_below].
        intros el H. cbn in H. lia. }
    rewrite (component_facts.no_component_elsewhere (List.length pre + 1)
               (Spec.typescript_all _ _ _ _ (S (List.length pre)))).
    2:{ eapply Forall_impl; [|apply component_facts.all_numbered].
        intros el H. cbn in H. lia. }
    rewrite component_facts.one_component by exact Hc.
    rewrite Hlines, app_nth2 by lia.
    replace (List.length pre + 1 - List.length pre) with 1 by lia.
    reflexivity.
Qed.

Lemma generator_component_named_widget_witness :
  exists elements,
    _analyze_typescript Examples.no_match (CodeElement_of Generator)
      Examples.widget_source
    = Return elements
    /\ filter (Spec.is_component_at 1) elements
       = [ mkCodeElement "Widget" "component" ["@Component({})"] [] [] 1 [] ].
Proof.
  exact (generator_component_named_widget Examples.no_match
           Examples.widget_source "@Component({})" [] ["}"]
           eq_refl eq_refl eq_refl).
Defined.

(** In either edition [analyze_file] has no handler: the fault of [open]
    for a file that cannot be read reaches the caller as it is, and a
    readable file with the extension [.js] or [.jsx] ends the call with the
    attribute error of the missing [_analyze_javascript]. *)
Theorem analyze_file_propagates (ed : edition)
  (ast_parse : string -> result ast.node)
  (re_finditer : string -> string -> list string)
  (fs : filesystem) (path : string) :
  (forall e, open_read fs path = Raise e ->
     analyze_file ast_parse re_finditer (CodeElement_of ed) fs path = Raise e)
  /\ (forall content, open_read fs path = Return content ->
        file_ext_in (snd (os_path.splitext path)) [".js"; ".jsx"] = true ->
        analyze_file ast_parse re_finditer (CodeElement_of ed) fs path
        = Raise (AttributeError
                   "'CodeAnalyzer' object has no attribute '_analyze_javascript'")).
Proof.
  split.
  - intros e Hread. unfold analyze_file, _read_file. now rewrite Hread.
  - intros content Hread Hext. unfold analyze_file, _read_file.
    rewrite Hread. cbn [bind].
    unfold file_ext_in in *. cbn [existsb] in Hext.
    apply orb_true_iff in Hext as [Hjs | Hjsx].
    + apply String.eqb_eq in Hjs. now rewrite Hjs.
    + rewrite orb_false_r in Hjsx. apply String.eqb_eq in Hjsx.
      now rewrite Hjsx.
Qed.

Lemma analyze_file_propagates_witness :
  analyze_file Examples.parse Examples.no_match (CodeElement_of Generator)
    Examples.project "/proj/app.js"
  = Raise (AttributeError
             "'CodeAnalyzer' object has no attribute '_analyze_javascript'").
Proof.
  exact (proj2 (analyze_file_propagates Generator Examples.parse
                  Examples.no_match Examples.project "/proj/app.js")
           "let x = 1;" eq_refl eq_refl).
Defined.

Module order_facts.

Import ast.









End order_facts.



(* ===================================================================== *)
(** * Part V: the helpers of the analyzer *)
(* ===================================================================== *)

Module helper_facts.

Lemma walk_subnodes (n x : ast.node) :
  In x (ast.walk n) <-> In x (ast.subnodes n).
Proof.
  split; apply Permutation_in;
    [apply ast_facts.walk_perm | apply Permutation_sym, ast_facts.walk_perm].
Qed.

Lemma take_word_words (s : string) :
  Forall (fun c => Py.isword c = true)
    (list_ascii_of_string (take_word s)).
Proof.
  induction s as [|c s IH]; cbn [take_word]; [constructor|].
  destruct (Py.isword c) eqn:Hc; cbn [list_ascii_of_string];
    [now constructor | constructor].
Qed.

Lemma match_class_word (s w : string) :
  match_class s = Some w ->
  w <> EmptyString
  /\ Forall (fun c => Py.isword c = true) (list_ascii_of_string w).
Proof.
  unfold match_class. destruct (Py.startswith s "class"); [|discriminate].
  destruct (skip_spaces (Py.drop 5 s)) as [rest|]; [|discriminate].
  pose proof (take_word_words rest) as Hw.
  destruct (take_word rest) as [|c t]; [discriminate|].
  intros H. injection H as <-. split; [discriminate | exact Hw].
Qed.

Lemma search_class_name_word (line w : string) :
  search_class_name line = Some w ->
  w <> EmptyString
  /\ Forall (fun c => Py.isword c = true) (list_ascii_of_string w).
Proof.
  induction line as [|c line IH]; cbn [search_class_name].
  - destruct (match_class EmptyString) eqn:H1.
    + intros H. injection H as <-. now apply (match_class_word EmptyString).
    + destruct (match_export_class EmptyString) eqn:H2; [|discriminate].
      discriminate.
  - destruct (match_class (String c line)) eqn:H1.
    + intros H. injection H as <-. now apply (match_class_word (String c line)).
    + destruct (match_export_class (String c line)) as [w'|] eqn:H2;
        [|exact IH].
      intros H. injection H as <-.
      unfold match_export_class in H2.
      destruct (Py.startswith (String c line) "export"); [|discriminate].
      destruct (skip_spaces (Py.drop 6 (String c line))) as [rest|];
        [|discriminate].
      now apply (match_class_word rest).
Qed.

(** A piece of a text that is cut from its front. *)
Lemma drop_suffix (k : nat) (s : string) :
  exists pre, s = pre ++ Py.drop k s.
Proof.
  revert s. induction k as [|k IH]; intros s.
  - now exists EmptyString.
  - destruct s as [|c s]; [now exists EmptyString|].
    destruct (IH s) as [pre H]. exists (String c pre). cbn. now rewrite <- H.
Qed.

Lemma lstrip_suffix (s : string) : exists pre, s = pre ++ Py.lstrip s.
Proof.
  induction s as [|c s [pre H]]; [now exists EmptyString|].
  cbn [Py.lstrip]. destruct (Py.isspace c).
  - exists (String c pre). cbn. now rewrite <- H.
  - now exists EmptyString.
Qed.

Lemma absent_in_suffix (line needle pre t : string) :
  Py.contains line needle = false ->
  line = pre ++ t ->
  String.prefix needle t = false.
Proof.
  intros Habs Hline. destruct (String.prefix needle t) eqn:Hp; [|reflexivity].
  apply string_facts.prefix_split in Hp as [post Hp].
  assert (Hc : Py.contains line needle = true).
  { apply string_facts.contains_split. exists pre, post. now rewrite <- Hp. }
  congruence.
Qed.

Lemma match_class_absent (line pre t : string) :
  Py.contains line "class" = false ->
  line = pre ++ t ->
  match_class t = None.
Proof.
  intros Habs Hline. unfold match_class, Py.startswith.
  now rewrite (absent_in_suffix line "class" pre t Habs Hline).
Qed.

Lemma search_class_name_absent (line : string) :
  Py.contains line "class" = false -> search_class_name line = None.
Proof.
  induction line as [|c line IH]; intros Habs.
  - reflexivity.
  - cbn [search_class_name].
    rewrite (match_class_absent (String c line) EmptyString (String c line) Habs)
      by reflexivity.
    assert (Hexp : match_export_class (String c line) = None).
    { unfold match_export_class.
      destruct (Py.startswith (String c line) "export"); [|reflexivity].
      unfold skip_spaces.
      destruct (Py.drop 6 (String c line)) as [|d rest] eqn:Hdrop; [reflexivity|].
      destruct (Py.isspace d); [|reflexivity].
      destruct (drop_suffix 6 (String c line)) as [p1 H1].
      destruct (lstrip_suffix (String d rest)) as [p2 H2].
      apply (match_class_absent (String c line) (p1 ++ p2)); [exact Habs|].
      rewrite splitter_facts.append_assoc, <- H2, <- Hdrop. exact H1. }
    rewrite Hexp. apply IH.
    cbn [Py.contains] in Habs. now apply orb_false_iff in Habs.
Qed.

Lemma lstrip_head (s : string) :
  Py.lstrip s = EmptyString
  \/ exists c r, Py.lstrip s = String c r /\ Py.isspace c = false.
Proof.
  induction s as [|c s IH]; cbn [Py.lstrip]; [now left|].
  destruct (Py.isspace c) eqn:Hc; [exact IH | right; now exists c, s].
Qed.

Lemma rstrip_idempotent (s : string) : Py.rstrip (Py.rstrip s) = Py.rstrip s.
Proof.
  induction s as [|c s IH]; [reflexivity|].
  cbn [Py.rstrip]. destruct (Py.rstrip s) as [|d r] eqn:Hr.
  - destruct (Py.isspace c) eqn:Hc; [reflexivity|].
    cbn [Py.rstrip]. now rewrite Hc.
  - cbn [Py.rstrip]. cbn [Py.rstrip] in IH.
    destruct (Py.rstrip r) as [|e r'] eqn:Hr'.
    + destruct (Py.isspace d); [discriminate IH | now rewrite IH].
    + now rewrite IH.
Qed.

Lemma rstrip_keeps_head (c : ascii) (s : string) :
  Py.isspace c = false -> exists r, Py.rstrip (String c s) = String c r.
Proof.
  intros Hc. cbn [Py.rstrip]. destruct (Py.rstrip s) as [|d r].
  - rewrite Hc. now exists EmptyString.
  - now exists (String d r).
Qed.

(** [strip] leaves what it returns as it is: the result has no white space
    at either end. *)
Lemma strip_idempotent (s : string) : Py.strip (Py.strip s) = Py.strip s.
Proof.
  unfold Py.strip.
  destruct (lstrip_head s) as [He | (c & r & He & Hc)]; rewrite He.
  - reflexivity.
  - destruct (rstrip_keeps_head c r Hc) as [r' Hr]. rewrite Hr.
    cbn [Py.lstrip]. rewrite Hc, <- Hr. apply rstrip_idempotent.
Qed.

End helper_facts.

(** [_get_dependencies]: the list holds no name twice, and it holds exactly
    the identifiers of the [Name] nodes of the tree of the node, the node
    itself included. *)
Theorem dependencies_are_the_names_below (node : ast.node) :
  NoDup (_get_dependencies node)
  /\ forall id,
       In id (_get_dependencies node)
       <-> exists loc, In (ast.Name loc id) (ast.subnodes node).
Proof.
  unfold _get_dependencies. split; [apply NoDup_nodup|].
  intros id. rewrite nodup_In, in_flat_map. split.
  - intros (child & Hchild & Hid). apply helper_facts.walk_subnodes in Hchild.
    destruct child; try contradiction.
    destruct Hid as [<-|[]]. now exists loc.
  - intros (loc & Hin). exists (ast.Name loc id). split.
    + now apply helper_facts.walk_subnodes.
    + now left.
Qed.

(** [_get_imports]: a text is in the list exactly when it is the bare name
    of an alias of an [import] statement anywhere in the tree, or the line
    [from M import A, B] rebuilt from a [from] statement anywhere in the
    tree ([None] for [M] when the statement names no module). *)
Theorem imports_of_the_whole_tree (tree : ast.node) (s : string) :
  In s (_get_imports tree)
  <-> (exists loc names a,
          In (ast.Import loc names) (ast.subnodes tree)
          /\ In a names /\ s = ast.name a)
      \/ (exists loc module names,
             In (ast.ImportFrom loc module names) (ast.subnodes tree)
             /\ s = "from " ++ str_of_module module ++ " import "
                      ++ Py.join ", " (map ast.name names)).
Proof.
  unfold _get_imports. rewrite in_flat_map. split.
  - intros (node & Hnode & Hs). apply helper_facts.walk_subnodes in Hnode.
    destruct node; try contradiction.
    + left. apply in_map_iff in Hs as (a & <- & Ha). now exists loc, names, a.
    + right. destruct Hs as [<-|[]]. now exists loc, module, names.
  - intros [(loc & names & a & Hin & Ha & ->) | (loc & module & names & Hin & ->)].
    + exists (ast.Import loc names). split;
        [now apply helper_facts.walk_subnodes | now apply in_map].
    + exists (ast.ImportFrom loc module names). split;
        [now apply helper_facts.walk_subnodes | now left].
Qed.

(** [_extract_name]: the name is never empty and is made of word characters
    only (the placeholder [Unknown] too); and a line in which the text
    [class] does not occur gets the placeholder. *)
Theorem extract_name_is_a_word (line : string) :
  _extract_name line <> EmptyString
  /\ Forall (fun c => Py.isword c = true)
       (list_ascii_of_string (_extract_name line))
  /\ (Py.contains line "class" = false -> _extract_name line = "Unknown").
Proof.
  unfold _extract_name. split; [|split].
  - destruct (search_class_name line) as [w|] eqn:Hs; [|discriminate].
    now apply (helper_facts.search_class_name_word line).
  - destruct (search_class_name line) as [w|] eqn:Hs.
    + now apply (helper_facts.search_class_name_word line).
    + repeat constructor.
  - intros Habs. now rewrite helper_facts.search_class_name_absent.
Qed.

Lemma extract_name_is_a_word_witness :
  _extract_name "@Input() label: string;" = "Unknown".
Proof.
  apply (proj2 (proj2 (extract_name_is_a_word "@Input() label: string;"))).
  reflexivity.
Defined.

(** [_extract_imports]: every entry is a line of the text without the white
    space around it, starts with [import ] or [from ], and has no white
    space left at either end. *)
Theorem extract_imports_are_stripped_lines (content s : string) :
  In s (_extract_imports content) ->
  (exists line, In line (Py.split_lines content) /\ s = Py.strip line)
  /\ (Py.startswith s "import " || Py.startswith s "from ") = true
  /\ Py.strip s = s.
Proof.
  unfold _extract_imports. rewrite in_flat_map.
  intros (line & Hline & Hs).
  destruct (Py.startswith (Py.strip line) "import "
            || Py.startswith (Py.strip line) "from ") eqn:Hp; [|contradiction].
  destruct Hs as [<-|[]]. split; [|split].
  - now exists line.
  - exact Hp.
  - apply helper_facts.strip_idempotent.
Qed.

Lemma extract_imports_are_stripped_lines_witness :
  Py.strip "import { Component } from '@angular/core';"
  = "import { Component } from '@angular/core';".
Proof.
  refine (proj2 (proj2 (extract_imports_are_stripped_lines
                          ("  import { Component } from '@angular/core';  "
                             ++ Py.nl ++ "@Component({})")
                          "import { Component } from '@angular/core';" _))).
  vm_compute. left. reflexivity.
Defined.

(* ===================================================================== *)
(** * Part VI: the records and the dashboard *)
(* ===================================================================== *)

Module record_facts.

(** In [scripts/generator.py] the loop of [_analyze_python] adds, for
    each class definition it meets and in the order it meets them, the
    record built from that node. *)
Lemma python_loop_records (tree : ast.node) (nodes : list ast.node) :
  forall elements,
  exists added,
    python_loop scripts_generator.CodeElement_call tree nodes elements
    = ((elements ++ added)%list, None)
    /\ Forall2
         (fun node el =>
            python_element scripts_generator.CodeElement_call tree node
            = Some (Return el))
         (filter ast.is_ClassDef nodes) added.
Proof.
  induction nodes as [|node rest IH]; intros elements; cbn [python_loop filter].
  - exists []. rewrite app_nil_r. split; [reflexivity | constructor].
  - destruct (python_element scripts_generator.CodeElement_call tree node)
      as [[el|e]|] eqn:Hel.
    + destruct (IH (elements ++ [el])%list) as (added & Heq & Hall).
      exists (el :: added). rewrite Heq, <- app_assoc. split; [reflexivity|].
      destruct node; try discriminate. cbn [ast.is_ClassDef].
      constructor; assumption.
    + destruct node; discriminate.
    + destruct (IH elements) as (added & Heq & Hall).
      exists added. split; [exact Heq|].
      destruct node; try exact Hall. discriminate.
Qed.

Section Typescript.

Variable re_finditer : string -> string -> list string.
Variable content : string.
Variable lines : list string.

(** What every record of the line at index [i] looks like. *)
Lemma records_shape (i : nat) (line : string) (table : list (string * string)) :
  Forall
    (fun el =>
       imports el = _extract_imports content
       /\ methods el = _extract_methods re_finditer content
       /\ dependencies el = []
       /\ decorators el = [Py.strip line]
       /\ line_number el = i + 1
       /\ In (type el) (map fst table))
    (Spec.typescript_records re_finditer content lines i line table).
Proof.
  induction table as [|[k p] rest IH]; cbn [Spec.typescript_records flat_map snd fst].
  - constructor.
  - apply Forall_app. split.
    + destruct (re_search p line); [|constructor].
      constructor; [|constructor]. cbn. repeat split. now left.
    + eapply Forall_impl; [|exact IH].
      intros el (H1 & H2 & H3 & H4 & H5 & H6). repeat split; try assumption.
      now right.
Qed.

(** The records of the lines [todo], the first at index [i], when the last
    of them has no signature: each comes from a line of [todo] that has a
    signature and is not the last. *)
Lemma all_shape (todo : list string) :
  forall i,
    Spec.matches_signature (last todo EmptyString) = false ->
    Forall
      (fun el =>
         imports el = _extract_imports content
         /\ methods el = _extract_methods re_finditer content
         /\ dependencies el = []
         /\ (exists line,
               In line todo /\ Spec.matches_signature line = true
               /\ decorators el = [Py.strip line])
         /\ i + 1 <= line_number el < i + List.length todo
         /\ In (type el) (map fst angular))
      (Spec.typescript_all re_finditer content lines todo i).
Proof.
  induction todo as [|line rest IH]; intros i Hlast; cbn [Spec.typescript_all].
  - constructor.
  - destruct rest as [|next rest'].
    + cbn [last] in Hlast.
      rewrite (typescript_facts.records_none _ _ _ _ _ _ Hlast). constructor.
    + apply Forall_app. split.
      * destruct (Spec.matches_signature line) eqn:Hline.
        -- eapply Forall_impl; [|apply records_shape].
           intros el (H1 & H2 & H3 & H4 & H5 & H6).
           repeat split; try assumption.
           ++ exists line. repeat split; [now left | exact Hline | exact H4].
           ++ lia.
           ++ cbn [List.length]. lia.
        -- rewrite (typescript_facts.records_none _ _ _ _ _ _ Hline). constructor.
      * eapply Forall_impl; [|apply (IH (S i) Hlast)].
        intros el (H1 & H2 & H3 & (l & Hl & Hm & Hd) & H5 & H6).
        repeat split; try assumption.
        -- exists l. repeat split; [now right | exact Hm | exact Hd].
        -- lia.
        -- cbn [List.length] in *. lia.
Qed.

End Typescript.

Lemma generator_return_inversion
  (re_finditer : string -> string -> list string) (content : string)
  (elements : list CodeElement) :
  _analyze_typescript re_finditer scripts_generator.CodeElement_call content
  = Return elements ->
  Spec.matches_signature (Spec.last_line content) = false
  /\ elements
     = Spec.typescript_all re_finditer content (Py.split_lines content)
         (Py.split_lines content) 0.
Proof.
  intros Hret.
  destruct (Spec.matches_signature (Spec.last_line content)) eqn:Hlast.
  - rewrite analyzer_facts.analyze_typescript_generator_raise in Hret
      by exact Hlast.
    discriminate.
  - rewrite analyzer_facts.analyze_typescript_generator_return in Hret
      by exact Hlast.
    injection Hret as <-. now split.
Qed.

Lemma returned_records_shape
  (re_finditer : string -> string -> list string) (content : string)
  (elements : list CodeElement) (el : CodeElement) :
  _analyze_typescript re_finditer scripts_generator.CodeElement_call content
  = Return elements ->
  In el elements ->
  imports el = _extract_imports content
  /\ methods el = _extract_methods re_finditer content
  /\ dependencies el = []
  /\ (exists line,
        In line (Py.split_lines content)
        /\ Spec.matches_signature line = true
        /\ decorators el = [Py.strip line])
  /\ 1 <= line_number el < List.length (Py.split_lines content)
  /\ In (type el) ["component"; "service"; "module"; "pipe"].
Proof.
  intros Hret Hin.
  apply generator_return_inversion in Hret as [Hlast ->].
  pose proof (all_shape re_finditer content
                (Py.split_lines content) (Py.split_lines content) 0 Hlast)
    as Hall.
  rewrite Forall_forall in Hall.
  destruct (Hall el Hin) as (H1 & H2 & H3 & H4 & H5 & H6).
  repeat split; try assumption; cbn in H5; lia.
Qed.

End record_facts.

(** In [scripts/generator.py] the records of a Python text that parses
    answer one to one, in the order of [ast.walk], to the class definitions
    of the tree: each has the name and the line of its class, the
    identifiers of the decorators that are plain names, the names of the
    function definitions that are direct statements of the class body, the
    imports of the whole tree and the names used below the class. *)
Theorem generator_python_records_follow_the_walk
  (ast_parse : string -> result ast.node) (content : string)
  (tree : ast.node) :
  ast_parse content = Return tree ->
  Forall2
    (fun node el =>
       match node with
       | ast.ClassDef loc cname _ _ body decorator_list =>
           name el = cname
           /\ type el = "class"
           /\ line_number el = ast.lineno loc
           /\ (forall d, In d (decorators el)
                         <-> exists l, In (ast.Name l d) decorator_list)
           /\ (forall m, In m (methods el)
                         <-> exists l ch, In (ast.FunctionDef l m ch) body)
           /\ imports el = _get_imports tree
           /\ dependencies el = _get_dependencies node
       | _ => False
       end)
    (filter ast.is_ClassDef (ast.walk tree))
    (_analyze_python ast_parse (CodeElement_of Generator) content).
Proof.
  intros Hparse. unfold _analyze_python. rewrite Hparse.
  destruct (record_facts.python_loop_records tree (ast.walk tree) [])
    as (added & Heq & Hall).
  cbn [CodeElement_of]. rewrite Heq. cbn [fst app].
  eapply Forall2_impl; [|exact Hall].
  intros node el Hel. destruct node; try discriminate.
  cbn in Hel. injection Hel as <-. cbn [name type line_number decorators
    methods imports dependencies]. repeat split; try reflexivity.
  - rewrite in_flat_map. intros (x & Hx & Hd). destruct x; try contradiction.
    destruct Hd as [<-|[]]. now exists loc0.
  - intros (l & Hl). apply in_flat_map. exists (ast.Name l d). split;
      [exact Hl | now left].
  - rewrite in_flat_map. intros (x & Hx & Hm). destruct x; try contradiction.
    destruct Hm as [<-|[]]. now exists loc0, children.
  - intros (l & ch & Hl). apply in_flat_map. exists (ast.FunctionDef l m ch).
    split; [exact Hl | now left].
Qed.

Lemma generator_python_records_follow_the_walk_witness :
  List.length (filter ast.is_ClassDef (ast.walk Examples.shapes_tree))
  = List.length
      (_analyze_python Examples.parse (CodeElement_of Generator)
         Examples.shapes_source).
Proof.
  exact (Forall2_length
           (generator_python_records_follow_the_walk Examples.parse
              Examples.shapes_source Examples.shapes_tree eq_refl)).
Defined.

(** In [scripts/generator.py], whenever the TypeScript strategy returns,
    every record carries the import lines and the method matches of the
    whole text, no dependency, and as its one decorator a signature line
    of the text without the white space around it; its type is a key of
    the Angular table; and its line number is at least 1 and less than the
    number of lines, the last line never giving a record. *)
Theorem generator_typescript_records_invariants
  (re_finditer : string -> string -> list string) (content : string)
  (elements : list CodeElement) (el : CodeElement) :
  _analyze_typescript re_finditer (CodeElement_of Generator) content
  = Return elements ->
  In el elements ->
  imports el = _extract_imports content
  /\ methods el = _extract_methods re_finditer content
  /\ dependencies el = []
  /\ (exists line,
        In line (Py.split_lines content)
        /\ Spec.matches_signature line = true
        /\ decorators el = [Py.strip line])
  /\ 1 <= line_number el < List.length (Py.split_lines content)
  /\ In (type el) ["component"; "service"; "module"; "pipe"].
Proof. apply record_facts.returned_records_shape. Qed.

Lemma generator_typescript_records_invariants_witness :
  line_number (mkCodeElement "Widget" "component" ["@Component({})"] [] [] 1 [])
  < List.length (Py.split_lines Examples.widget_source).
Proof.
  refine (proj2 (proj1 (proj2 (proj2 (proj2 (proj2
            (generator_typescript_records_invariants Examples.no_match
               Examples.widget_source _ _ eq_refl _))))))).
  left. reflexivity.
Defined.

Module dashboard_facts.

Import Dashboard.

Lemma count_of_type (l : list CodeElement) :
  Forall (fun el => type el = "class") l -> total_classes l = List.length l.
Proof.
  unfold total_classes. induction 1 as [|el l Hel _ IH]; cbn [filter List.length].
  - reflexivity.
  - rewrite Hel. cbn. now rewrite IH.
Qed.

Lemma none_of_type (l : list CodeElement) :
  Forall (fun el => type el <> "class") l -> total_classes l = 0.
Proof.
  unfold total_classes. induction 1 as [|el l Hel _ IH]; cbn [filter].
  - reflexivity.
  - apply String.eqb_neq in Hel. now rewrite Hel.
Qed.

Lemma imports_sum (k : nat) (l : list CodeElement) :
  Forall (fun el => List.length (imports el) = k) l ->
  total_imports l = List.length l * k.
Proof.
  unfold total_imports. induction 1 as [|el l Hel _ IH]; cbn [map List.length].
  - reflexivity.
  - change (list_sum (?a :: ?r)) with (a + list_sum r).
    rewrite Hel, IH. cbn. lia.
Qed.

(** The least of a list, by [fold_left]: below its start and every entry,
    and one of them. *)
Lemma fold_min_spec (rest : list nat) :
  forall x,
    fold_left Nat.min rest x <= x
    /\ Forall (fun y => fold_left Nat.min rest x <= y) rest
    /\ In (fold_left Nat.min rest x) (x :: rest).
Proof.
  induction rest as [|y rest IH]; intros x; cbn [fold_left].
  - split; [lia | split; [constructor | now left]].
  - destruct (IH (Nat.min x y)) as (Hle & Hall & Hin).
    split; [lia | split].
    + constructor; [lia | exact Hall].
    + destruct Hin as [Hm | Hm].
      * destruct (Nat.min_spec x y) as [[_ E] | [_ E]]; rewrite E in *.
        -- now left.
        -- right. now left.
      * right. now right.
Qed.

(** [index] finds the first position of a value that is in the list. *)
Lemma py_index_spec (l : list nat) (x : nat) :
  In x l ->
  exists i,
    py_index l x = Some i
    /\ nth_error l i = Some x
    /\ forall j y, j < i -> nth_error l j = Some y -> y <> x.
Proof.
  induction l as [|y l IH]; intros Hin; [contradiction|].
  cbn [py_index]. destruct (Nat.eqb_spec y x) as [->|Hne].
  - exists 0. repeat split. intros j z Hj. lia.
  - destruct Hin as [Hin|Hin]; [contradiction|].
    destruct (IH Hin) as (i & Hi & Hnth & Hfirst). rewrite Hi.
    exists (S i). repeat split; [exact Hnth|].
    intros [|j] z Hj Hz; cbn in Hz.
    + now injection Hz as <-.
    + apply (Hfirst j z); [lia | exact Hz].
Qed.

End dashboard_facts.

(** The end of [update_ui] never fails on its lookup: with no record the
    current row is left alone, and otherwise the row made current is the
    first one whose record has the least line number. *)
Theorem current_row_is_the_first_least_line (elements : list CodeElement) :
  Dashboard.current_item elements <> Dashboard.Fault
  /\ (Dashboard.current_item elements = Dashboard.Unchanged <-> elements = [])
  /\ forall i,
       Dashboard.current_item elements = Dashboard.Current i ->
       exists el,
         nth_error elements i = Some el
         /\ (forall other, In other elements ->
                line_number el <= line_number other)
         /\ (forall j other, j < i -> nth_error elements j = Some other ->
                line_number el < line_number other).
Proof.
  unfold Dashboard.current_item.
  destruct elements as [|e rest]; cbn [map].
  - split; [discriminate|]. split; [split; reflexivity|].
    intros i H. discriminate.
  - cbn [Dashboard.py_min].
    destruct (dashboard_facts.fold_min_spec (map line_number rest)
                (line_number e)) as (Hle & Hall & Hin).
    set (m := fold_left Nat.min (map line_number rest) (line_number e)) in *.
    destruct (dashboard_facts.py_index_spec
                (line_number e :: map line_number rest) m Hin)
      as (i & Hi & Hnth & Hfirst).
    rewrite Hi. split; [discriminate|]. split; [split; discriminate|].
    intros i' H. injection H as <-.
    change (line_number e :: map line_number rest)
      with (map line_number (e :: rest)) in Hnth, Hfirst.
    rewrite nth_error_map in Hnth.
    destruct (nth_error (e :: rest) i) as [el|] eqn:Hel; [|discriminate].
    cbn in Hnth. injection Hnth as Hm.
    assert (Hleast : forall other, In other (e :: rest) ->
                                   line_number el <= line_number other).
    { intros other [<-|Ho]; [lia|]. rewrite Forall_forall in Hall.
      rewrite Hm. apply Hall. now apply in_map. }
    exists el. repeat split; [exact Hleast|].
    intros j other Hj Hother.
    assert (Hne : line_number other <> m).
    { apply (Hfirst j); [exact Hj|]. rewrite nth_error_map, Hother. reflexivity. }
    assert (Hge : line_number el <= line_number other).
    { apply Hleast. now apply nth_error_In with j. }
    lia.
Qed.

Lemma current_row_is_the_first_least_line_witness :
  exists el,
    nth_error
      [ mkCodeElement "B" "class" [] [] [] 7 [];
        mkCodeElement "A" "class" [] [] [] 2 [];
        mkCodeElement "C" "class" [] [] [] 2 [] ] 1 = Some el
    /\ (forall other,
          In other
            [ mkCodeElement "B" "class" [] [] [] 7 [];
              mkCodeElement "A" "class" [] [] [] 2 [];
              mkCodeElement "C" "class" [] [] [] 2 [] ] ->
          line_number el <= line_number other)
    /\ (forall j other, j < 1 ->
          nth_error
            [ mkCodeElement "B" "class" [] [] [] 7 [];
              mkCodeElement "A" "class" [] [] [] 2 [];
              mkCodeElement "C" "class" [] [] [] 2 [] ] j = Some other ->
          line_number el < line_number other).
Proof.
  exact (proj2 (proj2 (current_row_is_the_first_least_line
                         [ mkCodeElement "B" "class" [] [] [] 7 [];
                           mkCodeElement "A" "class" [] [] [] 2 [];
                           mkCodeElement "C" "class" [] [] [] 2 [] ]))
           1 eq_refl).
Defined.

(** The metrics card after an analysis by [scripts/generator.py] of a
    Python text that parses: the class counter is the number of class
    definitions of the tree, and the import counter is that number times
    the number of imports of the file, each record carrying them all. *)
Theorem generator_python_metrics
  (ast_parse : string -> result ast.node) (content : string)
  (tree : ast.node) :
  ast_parse content = Return tree ->
  let elements := _analyze_python ast_parse (CodeElement_of Generator) content in
  Dashboard.total_classes elements = ast.count_classes tree
  /\ Dashboard.total_imports elements
     = ast.count_classes tree * List.length (_get_imports tree)
  /\ List.length (Dashboard.tree_items elements) = ast.count_classes tree.
Proof.
  intros Hparse elements. subst elements. cbn [CodeElement_of].
  destruct (python_facts.analyze_python_generator ast_parse content tree Hparse)
    as [Hlen Hall].
  cbv zeta in Hlen, Hall. repeat split.
  - rewrite dashboard_facts.count_of_type; [exact Hlen|].
    eapply Forall_impl; [|exact Hall]. now intros el [H _].
  - rewrite (dashboard_facts.imports_sum (List.length (_get_imports tree))).
    + now rewrite Hlen.
    + eapply Forall_impl; [|exact Hall]. intros el [_ H]. now rewrite H.
  - unfold Dashboard.tree_items. now rewrite length_map.
Qed.

Lemma generator_python_metrics_witness :
  Dashboard.total_imports
    (_analyze_python Examples.parse (CodeElement_of Generator)
       Examples.shapes_source)
  = 2 * 1.
Proof.
  exact (proj1 (proj2 (generator_python_metrics Examples.parse
                         Examples.shapes_source Examples.shapes_tree eq_refl))).
Defined.

(** The metrics card after an analysis of a TypeScript text by
    [scripts/generator.py]: no record is of type [class], so the class
    counter is 0 and the average is never divided out, however many
    components and methods were found. *)
Theorem generator_typescript_counts_no_class
  (re_finditer : string -> string -> list string) (content : string)
  (elements : list CodeElement) :
  _analyze_typescript re_finditer (CodeElement_of Generator) content
  = Return elements ->
  Dashboard.total_classes elements = 0
  /\ Dashboard.average_operands elements = None
  /\ Dashboard.total_methods elements
     = List.length elements
       * List.length (_extract_methods re_finditer content).
Proof.
  intros Hret.
  assert (Hall : Forall (fun el =>
                           methods el = _extract_methods re_finditer content
                           /\ type el <> "class") elements).
  { apply Forall_forall. intros el Hin.
    destruct (record_facts.returned_records_shape re_finditer content
                elements el Hret Hin) as (_ & Hm & _ & _ & _ & Ht).
    split; [exact Hm|].
    cbn in Ht. intuition congruence. }
  assert (Hzero : Dashboard.total_classes elements = 0).
  { apply dashboard_facts.none_of_type.
    eapply Forall_impl; [|exact Hall]. now intros el [_ H]. }
  repeat split.
  - exact Hzero.
  - unfold Dashboard.average_operands. now rewrite Hzero.
  - unfold Dashboard.total_methods. clear Hret Hzero.
    induction Hall as [|el l [Hm _] _ IH]; cbn [map List.length].
    + reflexivity.
    + change (list_sum (?a :: ?r)) with (a + list_sum r).
      rewrite Hm, IH. cbn. lia.
Qed.

Lemma generator_typescript_counts_no_class_witness :
  Dashboard.total_classes
    [mkCodeElement "Widget" "component" ["@Component({})"] [] [] 1 []] = 0.
Proof.
  exact (proj1 (generator_typescript_counts_no_class Examples.no_match
                  Examples.widget_source _ eq_refl)).
Defined.

(* ===================================================================== *)
(** * Part VII: the files the splitter writes *)
(* ===================================================================== *)

Module path_facts.

Lemma has_char_app (c : ascii) (a b : string) :
  Spec.has_char c (a ++ b) = Spec.has_char c a || Spec.has_char c b.
Proof.
  induction a as [|x a IH]; cbn [append Spec.has_char]; [reflexivity|].
  now rewrite IH, orb_assoc.
Qed.

Lemma rpartition_absent (c : ascii) (s : string) :
  Spec.has_char c s = false -> Py.rpartition c s = None.
Proof.
  induction s as [|a s IH]; cbn [Spec.has_char Py.rpartition]; [reflexivity|].
  intros H. apply orb_false_iff in H as [Ha Hs]. now rewrite (IH Hs), Ha.
Qed.

Lemma rpartition_none (c : ascii) (s : string) :
  Py.rpartition c s = None -> Spec.has_char c s = false.
Proof.
  induction s as [|a s IH]; cbn [Spec.has_char Py.rpartition]; [reflexivity|].
  destruct (Py.rpartition c s) as [[h t]|]; [discriminate|].
  destruct (Ascii.eqb a c); [discriminate|]. intros _. now apply IH.
Qed.

(** The text splits at its last [c]: nothing after it holds a [c]. *)
Lemma rpartition_some (c : ascii) (s h t : string) :
  Py.rpartition c s = Some (h, t) ->
  s = h ++ String c t /\ Spec.has_char c t = false.
Proof.
  revert h. induction s as [|a s IH]; intros h; cbn [Py.rpartition];
    [discriminate|].
  destruct (Py.rpartition c s) as [[h' t']|] eqn:Hr.
  - intros H. injection H as <- <-.
    destruct (IH h' eq_refl) as [-> Ht]. now split.
  - destruct (Ascii.eqb_spec a c) as [->|]; [|discriminate].
    intros H. injection H as <- <-. split; [reflexivity|].
    now apply rpartition_none.
Qed.

Lemma rpartition_app (c : ascii) (x f : string) :
  Spec.has_char c f = false ->
  Py.rpartition c (x ++ String c f) = Some (x, f).
Proof.
  intros Hf. induction x as [|a x IH]; cbn [append Py.rpartition].
  - now rewrite (rpartition_absent c f Hf), Ascii.eqb_refl.
  - now rewrite IH.
Qed.

Lemma basename_no_slash (p : string) :
  Spec.has_slash (os_path.basename p) = false.
Proof.
  unfold os_path.basename, Spec.has_slash.
  destruct (Py.rpartition os_path.sep p) as [[h t]|] eqn:Hr.
  - now apply rpartition_some in Hr.
  - now apply rpartition_none.
Qed.

(** [splitext] of a text without slash cuts it in two; the extension is
    empty or starts with the dot. *)
Lemma splitext_parts (b : string) :
  Spec.has_slash b = false ->
  b = fst (os_path.splitext b) ++ snd (os_path.splitext b)
  /\ (snd (os_path.splitext b) = EmptyString
      \/ exists e, snd (os_path.splitext b) = String os_path.extsep e).
Proof.
  intros Hb. unfold os_path.splitext.
  rewrite (rpartition_absent _ _ Hb).
  destruct (Py.rpartition os_path.extsep b) as [[stem ext]|] eqn:Hr.
  - destruct (Py.all_chars os_path.extsep stem); cbn [fst snd].
    + split; [|now left]. clear. induction b; cbn; congruence.
    + apply rpartition_some in Hr as [-> _]. split; [reflexivity|].
      right. now exists ext.
  - cbn [fst snd]. split; [|now left]. clear. induction b; cbn; congruence.
Qed.

Lemma base_name_no_slash (path : string) :
  Spec.has_slash (base_name_of path) = false.
Proof.
  unfold base_name_of.
  pose proof (basename_no_slash path) as Hb.
  destruct (splitext_parts _ Hb) as [Hsplit _].
  unfold Spec.has_slash in *. rewrite Hsplit, has_char_app in Hb.
  now apply orb_false_iff in Hb.
Qed.

Lemma lower_char_slash (c : ascii) :
  Ascii.eqb (Py.lower_char c) os_path.sep = Ascii.eqb c os_path.sep.
Proof.
  destruct c as [[] [] [] [] [] [] [] []]; reflexivity.
Qed.

Lemma lower_no_slash (s : string) :
  Spec.has_slash (Py.lower s) = Spec.has_slash s.
Proof.
  unfold Spec.has_slash.
  induction s as [|c s IH]; cbn [Py.lower Spec.has_char]; [reflexivity|].
  now rewrite lower_char_slash, IH.
Qed.

Lemma endswith_split (s p : string) :
  Py.endswith s p = true -> exists x, s = x ++ p.
Proof.
  induction s as [|c s IH]; cbn [Py.endswith].
  - rewrite orb_false_r. intros H. apply String.eqb_eq in H as <-.
    now exists EmptyString.
  - intros H. apply orb_true_iff in H as [H|H].
    + apply String.eqb_eq in H as <-. now exists EmptyString.
    + destruct (IH H) as [x ->]. now exists (String c x).
Qed.

Lemma append_cancel_l (a x y : string) : a ++ x = a ++ y -> x = y.
Proof.
  induction a as [|c a IH]; cbn [append]; [easy|].
  intros H. injection H as H. now apply IH.
Qed.

Lemma append_length (a b : string) :
  String.length (a ++ b) = String.length a + String.length b.
Proof. induction a as [|c a IH]; cbn; [reflexivity | now rewrite IH]. Qed.

Lemma append_cancel_r (x y z : string) : x ++ z = y ++ z -> x = y.
Proof.
  revert y. induction x as [|c x IH]; intros y H.
  - destruct y as [|d y]; [reflexivity|].
    apply (f_equal String.length) in H.
    cbn [append] in H. cbn [String.length] in H.
    rewrite append_length in H. lia.
  - destruct y as [|d y].
    + apply (f_equal String.length) in H.
      cbn [append] in H. cbn [String.length] in H.
      rewrite append_length in H. lia.
    + cbn [append] in H. injection H as -> H. now rewrite (IH y H).
Qed.

Lemma file_name_head (path cname : string) :
  Py.startswith (Spec.file_name path cname) "/" = false.
Proof.
  unfold Spec.file_name, Py.startswith.
  pose proof (base_name_no_slash path) as Hb. unfold Spec.has_slash in Hb.
  destruct (base_name_of path) as [|c b]; [reflexivity|].
  cbn [Spec.has_char] in Hb. apply orb_false_iff in Hb as [Hc _].
  cbn [append String.prefix].
  destruct (Ascii.ascii_dec "/" c) as [<-|]; [discriminate Hc | reflexivity].
Qed.

(** [os.path.join] puts the same text in front of file names of this
    form. *)
Lemma join_file_name (d path cname : string) :
  exists front,
    forall cname',
      os_path.join d (Spec.file_name path cname') = front ++ Spec.file_name path cname'.
Proof.
  unfold os_path.join.
  destruct (String.eqb d EmptyString || Py.endswith d "/") eqn:Hd.
  - exists d. intros c'. now rewrite file_name_head.
  - exists (d ++ "/"). intros c'.
    now rewrite file_name_head, splitter_facts.append_assoc.
Qed.

Lemma join_basename (d f : string) :
  Spec.has_slash f = false ->
  Py.startswith f "/" = false ->
  os_path.basename (os_path.join d f) = f.
Proof.
  intros Hf Hhead. unfold os_path.join, os_path.basename. rewrite Hhead.
  destruct (String.eqb_spec d EmptyString) as [->|Hne]; cbn [orb].
  - cbn [append]. now rewrite (rpartition_absent _ _ Hf).
  - destruct (Py.endswith d "/") eqn:He.
    + apply endswith_split in He as [x ->].
      rewrite splitter_facts.append_assoc.
      change ("/" ++ f) with (String os_path.sep f).
      now rewrite (rpartition_app _ _ _ Hf).
    + change (d ++ "/" ++ f) with (d ++ String os_path.sep f).
      now rewrite (rpartition_app _ _ _ Hf).
Qed.

(** Two classes get the same output file exactly when their names are the
    same up to the case of the letters. *)
Lemma same_target (path : string) (c d : ast.node) :
  target_of path c = target_of path d
  <-> Py.lower (ast.def_name c) = Py.lower (ast.def_name d).
Proof.
  unfold target_of, new_file_path_of.
  change (base_name_of path ++ "_" ++ Py.lower (ast.def_name c) ++ ".py")
    with (Spec.file_name path (ast.def_name c)).
  change (base_name_of path ++ "_" ++ Py.lower (ast.def_name d) ++ ".py")
    with (Spec.file_name path (ast.def_name d)).
  destruct (join_file_name (base_path_of path) path (ast.def_name c))
    as [front Hfront].
  rewrite !Hfront. unfold Spec.file_name. split.
  - intros H. apply append_cancel_l in H. apply append_cancel_l in H.
    cbn [append] in H. injection H as H. now apply append_cancel_r in H.
  - now intros ->.
Qed.

(** No output file is the file that is split. *)
Lemma target_is_new (path : string) (c : ast.node) :
  Spec.has_slash (ast.def_name c) = false ->
  target_of path c <> path.
Proof.
  intros Hname Heq.
  assert (Hfile : Spec.has_slash (Spec.file_name path (ast.def_name c)) = false).
  { unfold Spec.file_name, Spec.has_slash. rewrite !has_char_app.
    fold (Spec.has_slash (base_name_of path)).
    fold (Spec.has_slash (Py.lower (ast.def_name c))).
    now rewrite base_name_no_slash, lower_no_slash, Hname. }
  apply (f_equal os_path.basename) in Heq.
  unfold target_of, new_file_path_of in Heq.
  change (base_name_of path ++ "_" ++ Py.lower (ast.def_name c) ++ ".py")
    with (Spec.file_name path (ast.def_name c)) in Heq.
  rewrite (join_basename _ _ Hfile (file_name_head _ _)) in Heq.
  destruct (splitext_parts _ (basename_no_slash path)) as [Hsplit Hext].
  fold (base_name_of path) in Hsplit. rewrite Hsplit in Heq at 1.
  unfold Spec.file_name in Heq. apply append_cancel_l in Heq.
  destruct Hext as [He | [e He]]; rewrite He in Heq; discriminate.
Qed.

End path_facts.

Module overwrite_facts.

Section Loop.

Variable ast_parse : string -> result ast.node.
Variable get_source_segment : string -> ast.node -> string.
Variables content path : string.

(** A path that is the target of no class of the list is bound after the
    loop as before. *)
Lemma loop_keeps_lookup (l : list ast.node) (p : string) :
  (forall e, In e l -> ast.is_ClassDef e = true -> target_of path e <> p) ->
  forall w,
    lookup
      (disk (fold_left
               (split_class ast_parse get_source_segment content
                  (base_path_of path) (base_name_of path)) l w)) p
    = lookup (disk w) p.
Proof.
  induction l as [|n l IH]; intros Hother w; cbn [fold_left]; [reflexivity|].
  rewrite IH by (intros e He; apply Hother; now right).
  destruct (ast.is_ClassDef n) eqn:Hn.
  - destruct (lookup (disk w) (target_of path n)) as [[data|]|] eqn:Hl.
    1,3: destruct (splitter_facts.turn_written ast_parse get_source_segment
                     content path w n Hn) as [Hd _]; [congruence|];
         rewrite Hd; cbn [lookup];
         destruct (String.eqb_spec (target_of path n) p) as [Heq|]; [|reflexivity];
         exfalso; apply (Hother n); [now left | exact Hn | exact Heq].
    destruct (splitter_facts.turn_failed ast_parse get_source_segment
                content path w n Hn Hl) as [Hd _].
    now rewrite Hd.
  - destruct n; try reflexivity. discriminate.
Qed.

End Loop.

End overwrite_facts.

(** Two classes of a file are written to the same output file exactly when
    their names differ at most by the case of their letters. *)
Theorem outputs_collide_on_case_only (path : string) (c d : ast.node) :
  target_of path c = target_of path d
  <-> Py.lower (ast.def_name c) = Py.lower (ast.def_name d).
Proof. apply path_facts.same_target. Qed.

(** The splitter never writes over the file it splits: when no class name
    holds a slash (none that [ast.parse] returns does), the selected file
    reads after the run as it read before, whatever the run met. *)
Theorem split_keeps_the_source_file
  (ast_parse : string -> result ast.node)
  (get_source_segment : string -> ast.node -> string)
  (path content : string) (w : world) :
  open_read (disk w) path = Return content ->
  (forall tree c,
      ast_parse content = Return tree ->
      In c (ast.walk tree) ->
      Spec.has_slash (ast.def_name c) = false) ->
  open_read
    (disk (split_classes ast_parse get_source_segment (Some path) w)) path
  = Return content.
Proof.
  intros Hread Hnames. unfold split_classes, split_classes_body.
  rewrite Hread. cbn [bind].
  destruct (is_python path); [|exact Hread].
  destruct (ast_parse content) as [tree|e] eqn:Hparse; [|exact Hread].
  cbn [bind show disk]. unfold open_read.
  rewrite overwrite_facts.loop_keeps_lookup; [exact Hread|].
  intros c Hc _. apply filter_In in Hc as [Hc _].
  apply path_facts.target_is_new. now apply (Hnames tree).
Qed.

Lemma split_keeps_the_source_file_witness :
  open_read
    (disk (split_classes Examples.parse Examples.get_source_segment
             (Some "/proj/shapes.py") (mkworld Examples.project [])))
    "/proj/shapes.py"
  = Return Examples.shapes_source.
Proof.
  apply (split_keeps_the_source_file Examples.parse
           Examples.get_source_segment "/proj/shapes.py"
           Examples.shapes_source (mkworld Examples.project [])).
  - reflexivity.
  - intros tree c Hparse Hc.
    assert (Htree : tree = Examples.shapes_tree)
      by (vm_compute in Hparse; now injection Hparse).
    subst tree. vm_compute in Hc.
    repeat (destruct Hc as [<-|Hc]; [reflexivity|]). contradiction.
Defined.



Module closing_facts.

Lemma lookup_app_bound (added d : filesystem) (q : string) :
  lookup d q <> None -> lookup (added ++ d)%list q <> None.
Proof.
  intros Hd. induction added as [|[p e] added IH]; cbn [app lookup]; [exact Hd|].
  destruct (String.eqb p q); [discriminate | exact IH].
Qed.

Lemma grown_show (w w' : world) (n : notice) :
  Spec.grown_from w w' -> Spec.grown_from w (show w' n).
Proof.
  intros (added & boxes & Hd & Hs & Hall).
  exists added, (boxes ++ [n])%list. cbn [show disk shown].
  repeat split; [exact Hd | now rewrite Hs, app_assoc | exact Hall].
Qed.

(** Every run of the splitter only adds: files at paths that could be
    opened, and boxes. *)
Lemma split_grows (ast_parse : string -> result ast.node)
  (get_source_segment : string -> ast.node -> string)
  (current_file : option string) (w : world) :
  Spec.grown_from w
    (split_classes ast_parse get_source_segment current_file w).
Proof.
  unfold split_classes, split_classes_body.
  destruct current_file as [path|]; [|apply splitter_facts.grown_refl].
  destruct (open_read (disk w) path) as [content|e]; cbn [bind].
  2:{ apply grown_show, splitter_facts.grown_refl. }
  destruct (is_python path); cbn [bind].
  2:{ apply grown_show, splitter_facts.grown_refl. }
  destruct (ast_parse content) as [tree|e]; cbn [bind].
  - apply grown_show, splitter_facts.loop_grows.
  - apply grown_show, splitter_facts.grown_refl.
Qed.

Lemma records_count (re_finditer : string -> string -> list string)
  (content : string) (lines : list string) (i : nat) (line : string)
  (table : list (string * string)) :
  List.length (Spec.typescript_records re_finditer content lines i line table)
  = List.length (filter (fun p => re_search (snd p) line) table).
Proof.
  induction table as [|[k p] rest IH];
    cbn [Spec.typescript_records flat_map filter snd]; [reflexivity|].
  rewrite length_app.
  change (flat_map _ rest)
    with (Spec.typescript_records re_finditer content lines i line rest).
  rewrite IH. now destruct (re_search p line).
Qed.

Lemma all_count (re_finditer : string -> string -> list string)
  (content : string) (lines todo : list string) :
  forall i,
    List.length (Spec.typescript_all re_finditer content lines todo i)
    = list_sum
        (map (fun line =>
                List.length (filter (fun p => re_search (snd p) line) angular))
           todo).
Proof.
  induction todo as [|line rest IH]; intros i;
    cbn [Spec.typescript_all map]; [reflexivity|].
  change (list_sum (?a :: ?r)) with (a + list_sum r).
  now rewrite length_app, records_count, IH.
Qed.

End closing_facts.

(** The splitter never deletes and never unlocks: whatever it is run on, a
    path that held something holds something afterwards, a path [open]
    refuses is refused afterwards and no other path is, and the boxes shown
    before are still there, in front of the new ones. *)
Theorem split_only_adds
  (ast_parse : string -> result ast.node)
  (get_source_segment : string -> ast.node -> string)
  (current_file : option string) (w : world) :
  let w' := split_classes ast_parse get_source_segment current_file w in
  (forall q, lookup (disk w) q <> None -> lookup (disk w') q <> None)
  /\ (forall q, lookup (disk w') q = Some Locked
                <-> lookup (disk w) q = Some Locked)
  /\ exists boxes, shown w' = (shown w ++ boxes)%list.
Proof.
  intros w'.
  pose proof (closing_facts.split_grows ast_parse get_source_segment
                current_file w) as Hgrown.
  fold w' in Hgrown. split; [|split].
  - intros q Hq. destruct Hgrown as (added & boxes & Hd & _ & _).
    rewrite Hd. now apply closing_facts.lookup_app_bound.
  - intros q. now apply splitter_facts.grown_locked.
  - destruct Hgrown as (added & boxes & _ & Hs & _). now exists boxes.
Qed.

(** With no file selected the splitter does nothing at all.  With a file
    selected every run ends with one closing box: the success box, also
    for a file that is not Python and so is not split, or the critical box
    of the fault that ended the run, which is then the only box of the run
    and nothing was written. *)
Theorem split_ends_with_one_closing_box
  (ast_parse : string -> result ast.node)
  (get_source_segment : string -> ast.node -> string)
  (path : string) (w : world) :
  split_classes ast_parse get_source_segment None w = w
  /\ ((exists boxes,
         shown (split_classes ast_parse get_source_segment (Some path) w)
         = (shown w ++ boxes ++ [success_box])%list)
      \/ (exists e,
            split_classes ast_parse get_source_segment (Some path) w
            = show w (critical "Error"
                        ("Failed to split classes: " ++ str_of_exception e))
            /\ (open_read (disk w) path = Raise e
                \/ exists content,
                     open_read (disk w) path = Return content
                     /\ is_python path = true
                     /\ ast_parse content = Raise e)))
  /\ (is_python path = false ->
      forall content, open_read (disk w) path = Return content ->
      split_classes ast_parse get_source_segment (Some path) w
      = show w success_box).
Proof.
  split; [reflexivity|]. split.
  - unfold split_classes, split_classes_body.
    destruct (open_read (disk w) path) as [content|e] eqn:Hread; cbn [bind].
    2:{ right. exists e. split; [reflexivity | now left]. }
    destruct (is_python path) eqn:Hpy; cbn [bind].
    2:{ left. exists []. reflexivity. }
    destruct (ast_parse content) as [tree|e] eqn:Hparse; cbn [bind].
    + left.
      destruct (splitter_facts.loop_grows ast_parse get_source_segment content
                  path (filter ast.is_ClassDef (ast.walk tree)) w)
        as (added & boxes & _ & Hs & _).
      exists boxes. cbn [show shown]. now rewrite Hs, app_assoc.
    + right. exists e. split; [reflexivity|]. right. now exists content.
  - intros Hpy content Hread. unfold split_classes, split_classes_body.
    now rewrite Hread, Hpy.
Qed.

Lemma split_ends_with_one_closing_box_witness :
  split_classes Examples.parse Examples.get_source_segment
    (Some "/proj/app.js") (mkworld Examples.project [])
  = show (mkworld Examples.project []) success_box.
Proof.
  exact (proj2 (proj2 (split_ends_with_one_closing_box Examples.parse
                         Examples.get_source_segment "/proj/app.js"
                         (mkworld Examples.project [])))
           eq_refl "let x = 1;" eq_refl).
Defined.

(** In [scripts/generator.py], whenever the TypeScript strategy returns,
    it returns one record for each pair of a line and a pattern of the
    Angular table found on that line: a line with two signatures gives two
    records, nothing is merged. *)
Theorem generator_typescript_record_count
  (re_finditer : string -> string -> list string) (content : string)
  (elements : list CodeElement) :
  _analyze_typescript re_finditer (CodeElement_of Generator) content
  = Return elements ->
  List.length elements
  = list_sum
      (map (fun line =>
              List.length (filter (fun p => re_search (snd p) line) angular))
         (Py.split_lines content)).
Proof.
  intros Hret.
  apply record_facts.generator_return_inversion in Hret as [_ ->].
  apply closing_facts.all_count.
Qed.

Lemma generator_typescript_record_count_witness :
  List.length
    [ mkCodeElement "Both" "component" ["@Component() @Pipe()"] [] [] 1 [];
      mkCodeElement "Both" "pipe" ["@Component() @Pipe()"] [] [] 1 [] ]
  = 2 + (0 + 0).
Proof.
  exact (generator_typescript_record_count Examples.no_match
           (Py.join Py.nl ["@Component() @Pipe()"; "class Both {"])
           _ eq_refl).
Defined.
